(** * The Transit Gateway hub-and-spoke topology: builders and their properties

    A shallow embedding of the Pulumi program of this repository
    (vpc.py, networking.py, tgw.py and the assembly script __main__.py).

    Every builder of the source declares resources with the engine and hands
    back the resource object.  Here a builder is a computation in a small
    state-and-exception monad: the state is the stack under construction
    (the resources registered so far, in declaration order, and the exported
    outputs), and a Python exception ends the computation with the state as
    it was when the exception was raised.

    What lies outside the program is taken as given: the engine registers
    whatever it is handed (duplicate names, overlapping ranges and the like
    are rejected later, by the engine and the provider), and the calls to
    pulumi.log, which only write to the operator's console, are left out.
    Arguments with a default in the source are passed explicitly here.  The
    helpers of vpc.py that nothing in the repository calls (endpoints, flow
    logs, DHCP options) are not embedded. *)

From Stdlib Require Import ZArith.
From stdpp Require Import base option gmap strings list pretty.

Open Scope string_scope.
Open Scope nat_scope.
Open Scope stdpp_scope.
Open Scope list_scope.

(** ** Values handed to the engine *)

Inductive ResourceType :=
  | Vpc | Subnet | InternetGateway | Eip | NatGateway | RouteTable | Route
  | RouteTableAssociation | SecurityGroup | Instance
  | TransitGateway | VpcAttachment | TgwRouteTable | TgwRouteTableAssociation
  | TgwRouteTablePropagation | TgwRoute.

(** [resource.attr]: an attribute of a declared resource, known to the engine
    only after the resource exists. *)
Record Output := { out_type : ResourceType; out_name : string; out_attr : string }.

(** [pulumi.Input[str]]: a plain string or an [Output]. *)
Inductive Input :=
  | Str (s : string)
  | Ref (o : Output).

#[warnings="-register-all"]
Inductive Value :=
  | VNone
  | VBool (b : bool)
  | VInt (z : Z)
  | VIn (i : Input)
  | VTags (t : gmap string string)
  | VList (l : list Value)
  | VDict (d : list (string * Value))
  | VApply (args : list Output) (f : list string → string).

Record Resource := {
  res_type : ResourceType;
  res_name : string;
  res_args : gmap string Value;
}.

Definition attr (r : Resource) (a : string) : Output :=
  {| out_type := res_type r; out_name := res_name r; out_attr := a |}.

(** [r.id] *)
Definition id (r : Resource) : Input := Ref (attr r "id").

Definition kwargs (l : list (string * Value)) : gmap string Value := list_to_map l.

(** ** Python's truth values and string operations *)

Definition truthy_str (s : string) : bool :=
  match s with "" => false | _ => true end.

(** An [Output] is an ordinary object: it counts as true. *)
Definition truthy (i : Input) : bool :=
  match i with Str s => truthy_str s | Ref _ => true end.

Definition truthy_opt (o : option Input) : bool :=
  match o with None => false | Some i => truthy i end.

Definition truthy_dict {A} (o : option (gmap string A)) : bool :=
  match o with None => false | Some d => bool_decide (d ≠ ∅) end.

(** [sub in s] *)
Fixpoint str_in (sub s : string) : bool :=
  String.prefix sub s ||
  match s with
  | "" => false
  | String _ s' => str_in sub s'
  end.

(** [str(i)] for a loop index *)
Definition str_nat (i : nat) : string := pretty i.

(** [enumerate(l)], counting from [start] *)
Fixpoint enumerate_from {A} (start : nat) (l : list A) : list (nat * A) :=
  match l with
  | [] => []
  | x :: l' => (start, x) :: enumerate_from (S start) l'
  end.

Definition enumerate {A} (l : list A) : list (nat * A) := enumerate_from 0 l.

(** ** The stack under construction and the monad of declarations *)

Inductive Exception :=
  | ValueError (msg : string)
  | IndexError
  | ConfigTypeError (key : string).

Record Stack := {
  resources : list Resource;
  outputs : list (string * Value);
}.

Definition empty_stack : Stack := {| resources := []; outputs := [] |}.

Definition register (r : Resource) (s : Stack) : Stack :=
  {| resources := resources s ++ [r]; outputs := outputs s |}.

Definition register_all (rs : list Resource) (s : Stack) : Stack :=
  {| resources := resources s ++ rs; outputs := outputs s |}.

Definition M (A : Type) : Type := Stack → (Exception + A) * Stack.

#[global] Instance M_ret : MRet M := λ A x s, (inr x, s).

#[global] Instance M_bind : MBind M := λ A B f m s,
  match m s with
  | (inr x, s') => f x s'
  | (inl e, s') => (inl e, s')
  end.

Definition raise {A} (e : Exception) : M A := λ s, (inl e, s).

(** [T(name, **args)]: the constructor of a resource class registers the
    resource and returns it. *)
Definition declare (ty : ResourceType) (name : string) (args : gmap string Value)
  : M Resource :=
  λ s, let r := {| res_type := ty; res_name := name; res_args := args |} in
       (inr r, register r s).

(** [pulumi.export(key, v)] *)
Definition export (key : string) (v : Value) : M unit :=
  λ s, (inr tt, {| resources := resources s; outputs := outputs s ++ [(key, v)] |}).

(** [l[i]] *)
Definition index {A} (l : list A) (i : nat) : M A :=
  match l !! i with
  | Some x => mret x
  | None => raise IndexError
  end.

(** [for x in l: body], where the body updates the local [acc]. *)
Fixpoint for_each {A S} (l : list A) (body : A → S → M S) (acc : S) : M S :=
  match l with
  | [] => mret acc
  | x :: l' => acc' ← body x acc; for_each l' body acc'
  end.

(** [{"Name": name, **tags}] with [tags] defaulted to the empty dict:
    an entry of [tags] wins over the default name. *)
Definition named_tags (name : string) (tags : option (gmap string string))
  : gmap string string :=
  default ∅ tags ∪ {[ "Name" := name ]}.

(** ["enable" if b else "disable"] *)
Definition enable_str (b : bool) : string := if b then "enable" else "disable".

(** An optional argument passed on as it is. *)
Definition of_opt (o : option Input) : Value :=
  match o with Some i => VIn i | None => VNone end.

(** [s or d] on an optional string *)
Definition or_str (o : option string) (d : string) : string :=
  match o with
  | Some s => if truthy_str s then s else d
  | None => d
  end.

(** ** vpc.py *)

Module vpc.

Definition create_vpc (name cidr_block : string)
    (enable_dns_hostnames enable_dns_support : bool)
    (tags : option (gmap string string)) : M Resource :=
  if negb (truthy_str cidr_block) || negb (str_in "/" cidr_block) then
    raise (ValueError ("Invalid CIDR block: " +:+ cidr_block))
  else
    vpc ← declare Vpc name (kwargs [
      ("cidr_block", VIn (Str cidr_block));
      ("enable_dns_hostnames", VBool enable_dns_hostnames);
      ("enable_dns_support", VBool enable_dns_support);
      ("tags", VTags (named_tags name tags))]);
    mret vpc.

End vpc.

(** ** networking.py *)

Module networking.

Definition create_subnets (name_prefix : string) (vpc_id : Input)
    (cidr_blocks availability_zones : list string)
    (public : bool) (tags : option (gmap string string)) : M (list Resource) :=
  for_each (enumerate (zip cidr_blocks availability_zones))
    (λ '(i, (cidr, az)) subnets,
       subnet ← declare Subnet (name_prefix +:+ "-" +:+ str_nat i) (kwargs [
         ("vpc_id", VIn vpc_id);
         ("cidr_block", VIn (Str cidr));
         ("availability_zone", VIn (Str az));
         ("map_public_ip_on_launch", VBool public);
         ("tags", VTags (named_tags (name_prefix +:+ "-" +:+ str_nat i) tags))]);
       mret (subnets ++ [subnet]))
    [].

Definition create_internet_gateway (name : string) (vpc_id : Input)
    (tags : option (gmap string string)) : M Resource :=
  igw ← declare InternetGateway name (kwargs [
    ("vpc_id", VIn vpc_id);
    ("tags", VTags (named_tags name tags))]);
  mret igw.

Definition create_nat_gateway (name : string) (subnet_id : Input)
    (tags : option (gmap string string)) : M (Resource * Resource) :=
  eip ← declare Eip (name +:+ "-eip") (kwargs [
    ("tags", VTags (named_tags (name +:+ "-eip") tags))]);
  nat_gateway ← declare NatGateway name (kwargs [
    ("subnet_id", VIn subnet_id);
    ("allocation_id", VIn (id eip));
    ("tags", VTags (named_tags name tags))]);
  mret (nat_gateway, eip).

(** [range(count)] is empty for a count below one. *)
Definition create_route_tables (name_prefix : string) (vpc_id : Input) (count : Z)
    (tags : option (gmap string string)) : M (list Resource) :=
  for_each (seq 0 (Z.to_nat count))
    (λ i route_tables,
       rt ← declare RouteTable (name_prefix +:+ "-" +:+ str_nat i) (kwargs [
         ("vpc_id", VIn vpc_id);
         ("tags", VTags (named_tags (name_prefix +:+ "-" +:+ str_nat i) tags))]);
       mret (route_tables ++ [rt]))
    [].

Definition create_route (name : string) (route_table_id : Input)
    (destination_cidr_block : string)
    (gateway_id nat_gateway_id vpc_peering_connection_id : option Input)
  : M Resource :=
  let route_args := kwargs [
    ("route_table_id", VIn route_table_id);
    ("destination_cidr_block", VIn (Str destination_cidr_block))] in
  route_args ←
    (if truthy_opt gateway_id then
       mret (<["gateway_id" := of_opt gateway_id]> route_args)
     else if truthy_opt nat_gateway_id then
       mret (<["nat_gateway_id" := of_opt nat_gateway_id]> route_args)
     else if truthy_opt vpc_peering_connection_id then
       mret (<["vpc_peering_connection_id" := of_opt vpc_peering_connection_id]> route_args)
     else
       raise (ValueError
         "Must specify gateway_id, nat_gateway_id, or vpc_peering_connection_id"));
  route ← declare Route name route_args;
  mret route.

Definition associate_route_table (name : string) (subnet_id route_table_id : Input)
  : M Resource :=
  association ← declare RouteTableAssociation name (kwargs [
    ("subnet_id", VIn subnet_id);
    ("route_table_id", VIn route_table_id)]);
  mret association.

End networking.

(** ** tgw.py *)

Module tgw.

Definition create_transit_gateway (name : string) (description : option string)
    (amazon_side_asn : Z)
    (default_route_table_association default_route_table_propagation
       dns_support vpn_ecmp_support : bool)
    (tags : option (gmap string string)) : M Resource :=
  let default_rt_assoc := enable_str default_route_table_association in
  let default_rt_prop := enable_str default_route_table_propagation in
  let dns := enable_str dns_support in
  let vpn_ecmp := enable_str vpn_ecmp_support in
  tgw ← declare TransitGateway name (kwargs [
    ("description", VIn (Str (or_str description ("Transit Gateway " +:+ name))));
    ("amazon_side_asn", VInt amazon_side_asn);
    ("default_route_table_association", VIn (Str default_rt_assoc));
    ("default_route_table_propagation", VIn (Str default_rt_prop));
    ("dns_support", VIn (Str dns));
    ("vpn_ecmp_support", VIn (Str vpn_ecmp));
    ("tags", VTags (default ∅ tags))]);
  mret tgw.

Definition create_transit_gateway_vpc_attachment (name : string)
    (transit_gateway_id vpc_id : Input) (subnet_ids : list Input)
    (dns_support ipv6_support appliance_mode_support : bool)
    (tags : option (gmap string string)) : M Resource :=
  let dns := enable_str dns_support in
  let ipv6 := enable_str ipv6_support in
  let appliance := enable_str appliance_mode_support in
  attachment ← declare VpcAttachment name (kwargs [
    ("transit_gateway_id", VIn transit_gateway_id);
    ("vpc_id", VIn vpc_id);
    ("subnet_ids", VList (VIn <$> subnet_ids));
    ("dns_support", VIn (Str dns));
    ("ipv6_support", VIn (Str ipv6));
    ("appliance_mode_support", VIn (Str appliance));
    ("tags", VTags (default ∅ tags))]);
  mret attachment.

Definition create_transit_gateway_route_table (name : string)
    (transit_gateway_id : Input) (tags : option (gmap string string)) : M Resource :=
  route_table ← declare TgwRouteTable name (kwargs [
    ("transit_gateway_id", VIn transit_gateway_id);
    ("tags", VTags (default ∅ tags))]);
  mret route_table.

Definition create_transit_gateway_route_table_association (name : string)
    (transit_gateway_attachment_id transit_gateway_route_table_id : Input)
  : M Resource :=
  association ← declare TgwRouteTableAssociation name (kwargs [
    ("transit_gateway_attachment_id", VIn transit_gateway_attachment_id);
    ("transit_gateway_route_table_id", VIn transit_gateway_route_table_id)]);
  mret association.

Definition create_transit_gateway_route_table_propagation (name : string)
    (transit_gateway_attachment_id transit_gateway_route_table_id : Input)
  : M Resource :=
  propagation ← declare TgwRouteTablePropagation name (kwargs [
    ("transit_gateway_attachment_id", VIn transit_gateway_attachment_id);
    ("transit_gateway_route_table_id", VIn transit_gateway_route_table_id)]);
  mret propagation.

Definition create_transit_gateway_route (name destination_cidr_block : string)
    (transit_gateway_route_table_id : Input)
    (transit_gateway_attachment_id : option Input) (blackhole : bool) : M Resource :=
  let route_args := kwargs [
    ("destination_cidr_block", VIn (Str destination_cidr_block));
    ("transit_gateway_route_table_id", VIn transit_gateway_route_table_id);
    ("blackhole", VBool blackhole)] in
  let route_args :=
    if truthy_opt transit_gateway_attachment_id && negb blackhole then
      <["transit_gateway_attachment_id" := of_opt transit_gateway_attachment_id]> route_args
    else route_args in
  route ← declare TgwRoute name route_args;
  mret route.

Definition add_tgw_route_to_vpc_route_table (name : string) (route_table_id : Input)
    (destination_cidr_block : string) (transit_gateway_id : Input) : M Resource :=
  route ← declare Route name (kwargs [
    ("route_table_id", VIn route_table_id);
    ("destination_cidr_block", VIn (Str destination_cidr_block));
    ("transit_gateway_id", VIn transit_gateway_id)]);
  mret route.

(** One entry of [vpc_configs]: the dict with the keys "name", "vpc_id",
    "subnet_ids", "cidr" and "route_table_id" that the docstring asks for. *)
Record VpcConfig := {
  vc_name : string;
  vc_vpc_id : Input;
  vc_subnet_ids : list Input;
  vc_cidr : string;
  vc_route_table_id : Input;
}.

Definition create_tgw_with_vpc_attachments (name_prefix tgw_description : string)
    (vpc_configs : list VpcConfig) (use_default_route_table : bool)
    (tags : option (gmap string string))
  : M (Resource * list Resource * list Resource) :=
  tgw ← create_transit_gateway (name_prefix +:+ "-tgw") (Some tgw_description)
           64512 use_default_route_table use_default_route_table true true tags;
  attachments ← for_each vpc_configs
    (λ vpc_config attachments,
       attachment ← create_transit_gateway_vpc_attachment
         (name_prefix +:+ "-" +:+ vc_name vpc_config +:+ "-attachment")
         (id tgw) (vc_vpc_id vpc_config) (vc_subnet_ids vpc_config)
         true false false
         (Some (if truthy_dict tags
                then <["VPC" := vc_name vpc_config]> (default ∅ tags)
                else {[ "VPC" := vc_name vpc_config ]}));
       mret (attachments ++ [attachment]))
    [];
  vpc_routes ← for_each (enumerate vpc_configs)
    (λ '(i, src_vpc) vpc_routes,
       for_each (enumerate vpc_configs)
         (λ '(j, dst_vpc) vpc_routes,
            if bool_decide (i ≠ j) then
              route ← add_tgw_route_to_vpc_route_table
                (name_prefix +:+ "-" +:+ vc_name src_vpc +:+ "-to-" +:+ vc_name dst_vpc)
                (vc_route_table_id src_vpc) (vc_cidr dst_vpc) (id tgw);
              mret (vpc_routes ++ [route])
            else mret vpc_routes)
         vpc_routes)
    [];
  mret (tgw, attachments, vpc_routes).

(** The placeholder of the source: the gateway's own id is handed back. *)
Definition get_default_tgw_route_table_id (transit_gateway_id : Input) : Input :=
  transit_gateway_id.

End tgw.

(** ** __main__.py *)

(** What a run of the assembly script reads from outside the program. *)
Record Env := {
  get_project : string;            (* pulumi.get_project() *)
  get_stack : string;              (* pulumi.get_stack() *)
  settings : gmap string string;   (* the stack's settings, as the text stored *)
  get_ami : string;                (* the id of the image aws.ec2.get_ami finds *)
}.

(** [x or d] on an optional integer and on an optional boolean *)
Definition or_int (o : option Z) (d : Z) : Z :=
  match o with
  | Some z => if (z =? 0)%Z then d else z
  | None => d
  end.

Definition or_bool (o : option bool) (d : bool) : bool :=
  match o with
  | Some true => true
  | _ => d
  end.

Definition lift {A} (r : Exception + A) : M A := λ s, (r, s).

(** [join] with a line feed between the lines *)
Definition nl : string := String (Ascii.ascii_of_nat 10) "".

Fixpoint lines (l : list string) : string :=
  match l with
  | [] => ""
  | [x] => x
  | x :: l' => x +:+ nl +:+ lines l'
  end.

Section Program.

(** How pulumi.Config reads a stored text as an integer and as a boolean;
    [None] when it does not accept the text. *)
Variable to_int : string → option Z.
Variable to_bool : string → option bool.

(** [config.get(key)] *)
Definition get (config : gmap string string) (key : string) : option string :=
  config !! key.

(** [config.get_int(key)] *)
Definition get_int (config : gmap string string) (key : string)
  : Exception + option Z :=
  match config !! key with
  | None => inr None
  | Some v =>
      match to_int v with
      | Some z => inr (Some z)
      | None => inl (ConfigTypeError key)
      end
  end.

(** [config.get_bool(key)] *)
Definition get_bool (config : gmap string string) (key : string)
  : Exception + option bool :=
  match config !! key with
  | None => inr None
  | Some v =>
      match to_bool v with
      | Some b => inr (Some b)
      | None => inl (ConfigTypeError key)
      end
  end.

(** One entry of a security group's [ingress] or [egress] list. *)
Definition rule (protocol : string) (from_port to_port : Z) (cidr : string)
    (description : string) : Value :=
  VDict [
    ("protocol", VIn (Str protocol));
    ("from_port", VInt from_port);
    ("to_port", VInt to_port);
    ("cidr_blocks", VList [VIn (Str cidr)]);
    ("description", VIn (Str description))].

Definition test_instructions (args : list string) : string :=
  let arg n := default "" (args !! n) in
  lines [
    "";
    "✅ Transit Gateway Configured!";
    "";
    "CONNECTIVITY TEST:";
    "";
    "1. SSH to Lab instance:";
    "   ssh -i your-key.pem ec2-user@" +:+ arg 0;
    "   ";
    "2. From Lab instance, ping Dev instance private IP:";
    "   ping " +:+ arg 1;
    "   ";
    "3. SSH to Dev instance:";
    "   ssh -i your-key.pem ec2-user@" +:+ arg 2;
    "   ";
    "4. From Dev instance, ping Lab instance private IP:";
    "   ping " +:+ arg 3;
    "";
    "Both pings should work through Transit Gateway! ✅";
    "";
    "NOTE: Traffic flows through TGW (hub-and-spoke), NOT direct peering.";
    "      This is transitive routing - Lab → TGW → Dev works!";
    "      ";
    "COST WARNING: TGW costs $0.05/hour per attachment = $0.10/hour total";
    "              Destroy immediately after testing!";
    ""].

(** The module body, top to bottom. *)
Definition main (e : Env) : M unit :=
  let config := settings e in
  let project_name := get_project e in
  let stack_name := get_stack e in

  let lab_vpc_cidr := or_str (get config "lab_vpc_cidr") "10.200.0.0/16" in
  let lab_subnet_cidr := or_str (get config "lab_subnet_cidr") "10.200.10.0/24" in
  let lab_tgw_subnet_a_cidr :=
    or_str (get config "lab_tgw_subnet_a_cidr") "10.200.255.0/24" in
  let lab_tgw_subnet_b_cidr :=
    or_str (get config "lab_tgw_subnet_b_cidr") "10.200.254.0/24" in

  let dev_vpc_cidr := or_str (get config "dev_vpc_cidr") "10.201.0.0/16" in
  let dev_subnet_cidr := or_str (get config "dev_subnet_cidr") "10.201.10.0/24" in
  let dev_tgw_subnet_a_cidr :=
    or_str (get config "dev_tgw_subnet_a_cidr") "10.201.255.0/24" in
  let dev_tgw_subnet_b_cidr :=
    or_str (get config "dev_tgw_subnet_b_cidr") "10.201.254.0/24" in

  let instance_type := or_str (get config "instance_type") "t3.micro" in
  let key_name := get config "key_name" in

  tgw_asn ← lift (get_int config "tgw_asn");
  let tgw_amazon_side_asn := or_int tgw_asn 64512 in
  tgw_use_default_rt ← lift (get_bool config "tgw_use_default_rt");
  let use_default_tgw_route_table := or_bool tgw_use_default_rt true in

  let aws_region := or_str (get config "aws:region") "us-east-1" in

  let common_tags : gmap string string := list_to_map [
    ("Project", project_name);
    ("ManagedBy", "Pulumi");
    ("Environment", stack_name);
    ("Tutorial", "6-Transit-Gateway")] in

  let ami := get_ami e in

  (* Lab VPC *)
  lab_vpc ← vpc.create_vpc (project_name +:+ "-lab-vpc") lab_vpc_cidr true true
    (Some (<["Name" := "lab-vpc-" +:+ stack_name]> common_tags));
  lab_workload_subnets ← networking.create_subnets
    (project_name +:+ "-lab-workload") (id lab_vpc)
    [lab_subnet_cidr] [aws_region +:+ "a"] false
    (Some (<["Type" := "Workload"]>
             (<["Name" := "lab-workload-subnet-" +:+ stack_name]> common_tags)));
  lab_workload_subnet ← index lab_workload_subnets 0;
  lab_tgw_subnets ← networking.create_subnets
    (project_name +:+ "-lab-tgw") (id lab_vpc)
    [lab_tgw_subnet_a_cidr; lab_tgw_subnet_b_cidr]
    [aws_region +:+ "a"; aws_region +:+ "b"] false
    (Some (<["Type" := "TransitGateway"]> common_tags));
  lab_tgw_subnet_a ← index lab_tgw_subnets 0;
  lab_tgw_subnet_b ← index lab_tgw_subnets 1;
  lab_igw ← networking.create_internet_gateway (project_name +:+ "-lab-igw")
    (id lab_vpc) (Some (<["Name" := "lab-igw-" +:+ stack_name]> common_tags));
  lab_route_tables ← networking.create_route_tables
    (project_name +:+ "-lab-workload") (id lab_vpc) 1
    (Some (<["Name" := "lab-workload-rt-" +:+ stack_name]> common_tags));
  lab_route_table ← index lab_route_tables 0;
  lab_igw_route ← networking.create_route (project_name +:+ "-lab-igw-route")
    (id lab_route_table) "0.0.0.0/0" (Some (id lab_igw)) None None;
  lab_rta ← networking.associate_route_table (project_name +:+ "-lab-workload-rta")
    (id lab_workload_subnet) (id lab_route_table);

  (* Dev VPC *)
  dev_vpc ← vpc.create_vpc (project_name +:+ "-dev-vpc") dev_vpc_cidr true true
    (Some (<["Name" := "dev-vpc-" +:+ stack_name]> common_tags));
  dev_workload_subnets ← networking.create_subnets
    (project_name +:+ "-dev-workload") (id dev_vpc)
    [dev_subnet_cidr] [aws_region +:+ "a"] false
    (Some (<["Type" := "Workload"]>
             (<["Name" := "dev-workload-subnet-" +:+ stack_name]> common_tags)));
  dev_workload_subnet ← index dev_workload_subnets 0;
  dev_tgw_subnets ← networking.create_subnets
    (project_name +:+ "-dev-tgw") (id dev_vpc)
    [dev_tgw_subnet_a_cidr; dev_tgw_subnet_b_cidr]
    [aws_region +:+ "a"; aws_region +:+ "b"] false
    (Some (<["Type" := "TransitGateway"]> common_tags));
  dev_tgw_subnet_a ← index dev_tgw_subnets 0;
  dev_tgw_subnet_b ← index dev_tgw_subnets 1;
  dev_igw ← networking.create_internet_gateway (project_name +:+ "-dev-igw")
    (id dev_vpc) (Some (<["Name" := "dev-igw-" +:+ stack_name]> common_tags));
  dev_route_tables ← networking.create_route_tables
    (project_name +:+ "-dev-workload") (id dev_vpc) 1
    (Some (<["Name" := "dev-workload-rt-" +:+ stack_name]> common_tags));
  dev_route_table ← index dev_route_tables 0;
  dev_igw_route ← networking.create_route (project_name +:+ "-dev-igw-route")
    (id dev_route_table) "0.0.0.0/0" (Some (id dev_igw)) None None;
  dev_rta ← networking.associate_route_table (project_name +:+ "-dev-workload-rta")
    (id dev_workload_subnet) (id dev_route_table);

  (* Transit Gateway *)
  tgw ← tgw.create_transit_gateway (project_name +:+ "-tgw")
    (Some ("Transit Gateway for " +:+ project_name))
    tgw_amazon_side_asn
    use_default_tgw_route_table use_default_tgw_route_table true true
    (Some (<["Name" := "tgw-" +:+ stack_name]> common_tags));

  (* Transit Gateway attachments *)
  lab_attachment ← tgw.create_transit_gateway_vpc_attachment
    (project_name +:+ "-lab-tgw-attachment") (id tgw) (id lab_vpc)
    [id lab_tgw_subnet_a; id lab_tgw_subnet_b] true false false
    (Some (<["VPC" := "lab"]>
             (<["Name" := "lab-tgw-attachment-" +:+ stack_name]> common_tags)));
  dev_attachment ← tgw.create_transit_gateway_vpc_attachment
    (project_name +:+ "-dev-tgw-attachment") (id tgw) (id dev_vpc)
    [id dev_tgw_subnet_a; id dev_tgw_subnet_b] true false false
    (Some (<["VPC" := "dev"]>
             (<["Name" := "dev-tgw-attachment-" +:+ stack_name]> common_tags)));

  (* VPC route table updates *)
  lab_to_dev_route ← tgw.add_tgw_route_to_vpc_route_table
    (project_name +:+ "-lab-to-dev-via-tgw") (id lab_route_table) dev_vpc_cidr (id tgw);
  dev_to_lab_route ← tgw.add_tgw_route_to_vpc_route_table
    (project_name +:+ "-dev-to-lab-via-tgw") (id dev_route_table) lab_vpc_cidr (id tgw);

  (* Security groups *)
  lab_sg ← declare SecurityGroup (project_name +:+ "-lab-sg") (kwargs [
    ("vpc_id", VIn (id lab_vpc));
    ("description", VIn (Str "Security group for Lab VPC test instance"));
    ("ingress", VList [
       rule "tcp" 22 22 "0.0.0.0/0" "SSH access";
       rule "icmp" (-1) (-1) dev_vpc_cidr "ICMP from Dev VPC";
       rule "-1" 0 0 dev_vpc_cidr "All traffic from Dev VPC"]);
    ("egress", VList [
       rule "-1" 0 0 "0.0.0.0/0" "Allow all outbound"]);
    ("tags", VTags (<["Name" := "lab-sg-" +:+ stack_name]> common_tags))]);
  dev_sg ← declare SecurityGroup (project_name +:+ "-dev-sg") (kwargs [
    ("vpc_id", VIn (id dev_vpc));
    ("description", VIn (Str "Security group for Dev VPC test instance"));
    ("ingress", VList [
       rule "tcp" 22 22 "0.0.0.0/0" "SSH access";
       rule "icmp" (-1) (-1) lab_vpc_cidr "ICMP from Lab VPC";
       rule "-1" 0 0 lab_vpc_cidr "All traffic from Lab VPC"]);
    ("egress", VList [
       rule "-1" 0 0 "0.0.0.0/0" "Allow all outbound"]);
    ("tags", VTags (<["Name" := "dev-sg-" +:+ stack_name]> common_tags))]);

  (* Test instances *)
  lab_instance ← declare Instance (project_name +:+ "-lab-instance") (kwargs [
    ("instance_type", VIn (Str instance_type));
    ("ami", VIn (Str ami));
    ("subnet_id", VIn (id lab_workload_subnet));
    ("vpc_security_group_ids", VList [VIn (id lab_sg)]);
    ("associate_public_ip_address", VBool true);
    ("key_name", from_option (λ k, VIn (Str k)) VNone key_name);
    ("tags", VTags (<["Name" := "lab-instance-" +:+ stack_name]> common_tags))]);
  dev_instance ← declare Instance (project_name +:+ "-dev-instance") (kwargs [
    ("instance_type", VIn (Str instance_type));
    ("ami", VIn (Str ami));
    ("subnet_id", VIn (id dev_workload_subnet));
    ("vpc_security_group_ids", VList [VIn (id dev_sg)]);
    ("associate_public_ip_address", VBool true);
    ("key_name", from_option (λ k, VIn (Str k)) VNone key_name);
    ("tags", VTags (<["Name" := "dev-instance-" +:+ stack_name]> common_tags))]);

  (* Outputs *)
  export "lab_vpc_id" (VIn (id lab_vpc));;
  export "lab_vpc_cidr" (VIn (Str lab_vpc_cidr));;
  export "lab_workload_subnet_id" (VIn (id lab_workload_subnet));;
  export "lab_tgw_subnet_a_id" (VIn (id lab_tgw_subnet_a));;
  export "lab_tgw_subnet_b_id" (VIn (id lab_tgw_subnet_b));;
  export "lab_instance_id" (VIn (id lab_instance));;
  export "lab_instance_public_ip" (VIn (Ref (attr lab_instance "public_ip")));;
  export "lab_instance_private_ip" (VIn (Ref (attr lab_instance "private_ip")));;

  export "dev_vpc_id" (VIn (id dev_vpc));;
  export "dev_vpc_cidr" (VIn (Str dev_vpc_cidr));;
  export "dev_workload_subnet_id" (VIn (id dev_workload_subnet));;
  export "dev_tgw_subnet_a_id" (VIn (id dev_tgw_subnet_a));;
  export "dev_tgw_subnet_b_id" (VIn (id dev_tgw_subnet_b));;
  export "dev_instance_id" (VIn (id dev_instance));;
  export "dev_instance_public_ip" (VIn (Ref (attr dev_instance "public_ip")));;
  export "dev_instance_private_ip" (VIn (Ref (attr dev_instance "private_ip")));;

  export "transit_gateway_id" (VIn (id tgw));;
  export "transit_gateway_arn" (VIn (Ref (attr tgw "arn")));;
  export "transit_gateway_asn" (VInt tgw_amazon_side_asn);;
  export "lab_tgw_attachment_id" (VIn (id lab_attachment));;
  export "dev_tgw_attachment_id" (VIn (id dev_attachment));;

  export "test_instructions"
    (VApply [attr lab_instance "public_ip"; attr dev_instance "private_ip";
             attr dev_instance "public_ip"; attr lab_instance "private_ip"]
            test_instructions).

End Program.

(** * What the builders declare, in closed form

    The definitions of this part are not code of the repository: they name
    the resources and the quantities the properties below speak about. *)

#[global] Instance ResourceType_eq_dec : EqDecision ResourceType.
Proof. solve_decision. Defined.

(** The resources of one type, in declaration order. *)
Definition of_type (ty : ResourceType) (s : Stack) : list Resource :=
  filter (λ r, res_type r = ty) (resources s).

(** The routes of a stack that point at a hub. *)
Definition hub_routes (s : Stack) : list Resource :=
  filter (λ r, res_type r = Route ∧ is_Some (res_args r !! "transit_gateway_id"))
         (resources s).

Section subnet_decl.

Variables (name_prefix : string) (vpc_id : Input) (public : bool)
          (tags : option (gmap string string)).

(** The subnet declared by one turn of the loop. *)
Definition subnet_decl (x : nat * (string * string)) : Resource :=
  let '(i, (cidr, az)) := x in
  {| res_type := Subnet;
     res_name := name_prefix +:+ "-" +:+ str_nat i;
     res_args := kwargs [
       ("vpc_id", VIn vpc_id);
       ("cidr_block", VIn (Str cidr));
       ("availability_zone", VIn (Str az));
       ("map_public_ip_on_launch", VBool public);
       ("tags", VTags (named_tags (name_prefix +:+ "-" +:+ str_nat i) tags))] |}.

End subnet_decl.

(** The next-hop entries a declared route carries. *)
Definition hop_keys : list string :=
  ["gateway_id"; "nat_gateway_id"; "vpc_peering_connection_id"; "transit_gateway_id"].

Definition next_hops (r : Resource) : list (string * Value) :=
  omap (λ k, (λ v, (k, v)) <$> res_args r !! k) hop_keys.

(** The three next-hop arguments under their keyword, in the order of the
    signature. *)
Definition hop_args (g n p : option Input) : list (string * option Input) :=
  [("gateway_id", g); ("nat_gateway_id", n); ("vpc_peering_connection_id", p)].

(** How many of them are supplied, that is, not [None]. *)
Definition count_supplied (g n p : option Input) : nat :=
  length (filter (λ a, a.2 ≠ None) (hop_args g n p)).

(** How many of them Python counts as true: not [None] and not the empty
    string. *)
Definition count_usable (g n p : option Input) : nat :=
  length (filter (λ a, truthy_opt a.2 = true) (hop_args g n p)).

(** The first supplied argument, in the fixed order. *)
Definition first_non_null (g n p : option Input) : option (string * Input) :=
  head (omap (λ '(k, o), (λ i, (k, i)) <$> o) (hop_args g n p)).

(** The first argument, in the fixed order, that Python counts as true. *)
Definition first_hop (g n p : option Input) : option (string * Input) :=
  head (omap (λ '(k, o), if truthy_opt o then (λ i, (k, i)) <$> o else None)
             (hop_args g n p)).

Definition route_decl (name : string) (route_table_id : Input)
    (destination_cidr_block : string) (k : string) (i : Input) : Resource :=
  {| res_type := Route;
     res_name := name;
     res_args := <[k := VIn i]> (kwargs [
       ("route_table_id", VIn route_table_id);
       ("destination_cidr_block", VIn (Str destination_cidr_block))]) |}.

(** Every pair of entries at two different positions of [l], in the order of
    the two nested loops. *)
Definition ordered_pairs {A} (l : list A) : list (A * A) :=
  '(i, x) ← enumerate l;
  '(j, y) ← enumerate l;
  if bool_decide (i ≠ j) then [(x, y)] else [].

Section composite_decl.

Import tgw.

Variables (name_prefix tgw_description : string) (use_default_route_table : bool)
          (tags : option (gmap string string)).

(** The hub the composite declares. *)
Definition hub_decl : Resource :=
  {| res_type := TransitGateway;
     res_name := name_prefix +:+ "-tgw";
     res_args := kwargs [
       ("description",
         VIn (Str (or_str (Some tgw_description)
                     ("Transit Gateway " +:+ (name_prefix +:+ "-tgw")))));
       ("amazon_side_asn", VInt 64512);
       ("default_route_table_association", VIn (Str (enable_str use_default_route_table)));
       ("default_route_table_propagation", VIn (Str (enable_str use_default_route_table)));
       ("dns_support", VIn (Str "enable"));
       ("vpn_ecmp_support", VIn (Str "enable"));
       ("tags", VTags (default ∅ tags))] |}.

(** The attachment declared for one entry of [vpc_configs]. *)
Definition attachment_decl (vpc_config : VpcConfig) : Resource :=
  {| res_type := VpcAttachment;
     res_name := name_prefix +:+ "-" +:+ vc_name vpc_config +:+ "-attachment";
     res_args := kwargs [
       ("transit_gateway_id", VIn (id hub_decl));
       ("vpc_id", VIn (vc_vpc_id vpc_config));
       ("subnet_ids", VList (VIn <$> vc_subnet_ids vpc_config));
       ("dns_support", VIn (Str "enable"));
       ("ipv6_support", VIn (Str "disable"));
       ("appliance_mode_support", VIn (Str "disable"));
       ("tags", VTags (if truthy_dict tags
                       then <["VPC" := vc_name vpc_config]> (default ∅ tags)
                       else {[ "VPC" := vc_name vpc_config ]}))] |}.

(** The route declared for one pair of entries: in the table of the first,
    to the range of the second, through the hub. *)
Definition return_route_decl (pair : VpcConfig * VpcConfig) : Resource :=
  let '(src_vpc, dst_vpc) := pair in
  {| res_type := Route;
     res_name := name_prefix +:+ "-" +:+ vc_name src_vpc +:+ "-to-" +:+ vc_name dst_vpc;
     res_args := kwargs [
       ("route_table_id", VIn (vc_route_table_id src_vpc));
       ("destination_cidr_block", VIn (Str (vc_cidr dst_vpc)));
       ("transit_gateway_id", VIn (id hub_decl))] |}.

End composite_decl.

(** The settings the assembly script reads. *)
Definition config_keys : list string := [
  "lab_vpc_cidr"; "lab_subnet_cidr"; "lab_tgw_subnet_a_cidr"; "lab_tgw_subnet_b_cidr";
  "dev_vpc_cidr"; "dev_subnet_cidr"; "dev_tgw_subnet_a_cidr"; "dev_tgw_subnet_b_cidr";
  "instance_type"; "key_name"; "tgw_asn"; "tgw_use_default_rt"; "aws:region"].

(** Two runs read the same settings. *)
Definition same_settings (e1 e2 : Env) : Prop :=
  Forall (λ key, settings e1 !! key = settings e2 !! key) config_keys.

(** Two runs read the same settings, run under the same project and stack
    names, and get the same image from the lookup. *)
Definition same_inputs (e1 e2 : Env) : Prop :=
  same_settings e1 e2
  ∧ get_project e1 = get_project e2
  ∧ get_stack e1 = get_stack e2
  ∧ get_ami e1 = get_ami e2.

(** ** Further vocabulary *)

(** The route table declared by turn [i] of the loop of
    [create_route_tables]. *)
Definition route_table_decl (name_prefix : string) (vpc_id : Input)
    (tags : option (gmap string string)) (i : nat) : Resource :=
  {| res_type := RouteTable;
     res_name := name_prefix +:+ "-" +:+ str_nat i;
     res_args := kwargs [
       ("vpc_id", VIn vpc_id);
       ("tags", VTags (named_tags (name_prefix +:+ "-" +:+ str_nat i) tags))] |}.

(** The tags a declared resource carries, if it carries any. *)
Definition tags_of (r : Resource) : option (gmap string string) :=
  match res_args r !! "tags" with
  | Some (VTags t) => Some t
  | _ => None
  end.

(** The address ranges the assembly script settles on for its two
    networks: its locals [lab_vpc_cidr] and [dev_vpc_cidr]. *)
Definition lab_vpc_cidr (e : Env) : string :=
  or_str (settings e !! "lab_vpc_cidr") "10.200.0.0/16".

Definition dev_vpc_cidr (e : Env) : string :=
  or_str (settings e !! "dev_vpc_cidr") "10.201.0.0/16".

(** The type and logical name of a resource, which together identify it to
    the engine, and the pair an [Output] points at. *)
Definition urn (r : Resource) : ResourceType * string := (res_type r, res_name r).

Definition ref_urn (o : Output) : ResourceType * string := (out_type o, out_name o).

(** The outputs of other resources that occur in a value. *)
Fixpoint refs_of (v : Value) : list Output :=
  match v with
  | VIn (Ref o) => [o]
  | VList l =>
      (fix go l := match l with [] => [] | x :: l' => refs_of x ++ go l' end) l
  | VDict d =>
      (fix go d := match d with [] => [] | (_, x) :: d' => refs_of x ++ go d' end) d
  | VApply args _ => args
  | _ => []
  end.

Definition resource_refs (r : Resource) : list Output :=
  (map_to_list (res_args r)).*2 ≫= refs_of.

(** Every resource refers only to resources declared before it. *)
Definition declared_before (rs : list Resource) : Prop :=
  ∀ i r, rs !! i = Some r →
    Forall (λ o, ∃ j r', j < i ∧ rs !! j = Some r' ∧ urn r' = ref_urn o)
           (resource_refs r).

Definition declared_in (rs : list Resource) (o : Output) : Prop :=
  ∃ r, r ∈ rs ∧ urn r = ref_urn o.

(** Runs of the assembly script used as examples below: a setting for the
    ASN that is no integer, a second network range without "/", the default
    route table switched off, and an ASN of zero. *)
Definition env_bad_asn : Env :=
  {| get_project := "tgw-hub"; get_stack := "dev";
     settings := {[ "tgw_asn" := "sixty-four" ]}; get_ami := "ami-0aaa" |}.

Definition env_bad_dev_range : Env :=
  {| get_project := "tgw-hub"; get_stack := "dev";
     settings := {[ "dev_vpc_cidr" := "10.201.0.0" ]}; get_ami := "ami-0aaa" |}.

Definition env_no_default_rt : Env :=
  {| get_project := "tgw-hub"; get_stack := "dev";
     settings := {[ "tgw_use_default_rt" := "false" ]}; get_ami := "ami-0aaa" |}.

Definition env_asn_zero : Env :=
  {| get_project := "tgw-hub"; get_stack := "dev";
     settings := {[ "tgw_asn" := "0" ]}; get_ami := "ami-0aaa" |}.

(** * Properties *)

(** ** The monad and the loop *)

Lemma register_all_nil s : register_all [] s = s.
Proof. destruct s as [rs os]. unfold register_all; simpl. by rewrite app_nil_r. Qed.

Lemma register_all_app rs1 rs2 s :
  register_all rs2 (register_all rs1 s) = register_all (rs1 ++ rs2) s.
Proof. unfold register_all; simpl. by rewrite app_assoc. Qed.

Lemma register_one r s : register r s = register_all [r] s.
Proof. done. Qed.

Lemma bind_inr {A B} (m : M A) (f : A → M B) s x s' :
  m s = (inr x, s') → (m ≫= f) s = f x s'.
Proof. intros H. unfold mbind, M_bind. by rewrite H. Qed.

Lemma bind_inl {A B} (m : M A) (f : A → M B) s e s' :
  m s = (inl e, s') → (m ≫= f) s = (inl e, s').
Proof. intros H. unfold mbind, M_bind. by rewrite H. Qed.

(** A loop whose body always appends [F x] to the accumulator and declares
    [R x] never raises; it returns and declares the concatenation. *)
Lemma for_each_flat {A B} (body : A → list B → M (list B))
    (F : A → list B) (R : A → list Resource) (l : list A) :
  (∀ x acc s, body x acc s = (inr (acc ++ F x), register_all (R x) s)) →
  ∀ acc s,
    for_each l body acc s = (inr (acc ++ l ≫= F), register_all (l ≫= R) s).
Proof.
  intros Hbody. induction l as [|x l IH]; intros acc s; simpl.
  - by rewrite app_nil_r, register_all_nil.
  - erewrite bind_inr by apply Hbody.
    rewrite IH, register_all_app. by rewrite <- app_assoc.
Qed.

Lemma length_bind_const {A B} (f : A → list B) (c : nat) (l : list A) :
  (∀ x, x ∈ l → length (f x) = c) → length (l ≫= f) = length l * c.
Proof.
  induction l as [|x l IH]; intros H; [done|].
  rewrite bind_cons, length_app.
  rewrite (H x) by constructor.
  rewrite IH; [done|]. intros y Hy. apply H. by constructor.
Qed.

(** ** Enumerations *)

Lemma length_enumerate_from {A} (l : list A) k : length (enumerate_from k l) = length l.
Proof. revert k; induction l; intros; simpl; auto. Qed.

Lemma lookup_enumerate_from {A} (l : list A) k i :
  enumerate_from k l !! i = (λ x, (k + i, x)) <$> l !! i.
Proof.
  revert k i; induction l as [|x l IH]; intros k [|i]; simpl; try done.
  - by rewrite Nat.add_0_r.
  - rewrite IH. by replace (S k + i) with (k + S i) by lia.
Qed.

Lemma lookup_enumerate {A} (l : list A) i :
  enumerate l !! i = (λ x, (i, x)) <$> l !! i.
Proof. apply (lookup_enumerate_from l 0 i). Qed.

Lemma elem_of_enumerate_from {A} (l : list A) k i x :
  (i, x) ∈ enumerate_from k l ↔ k ≤ i ∧ l !! (i - k) = Some x.
Proof.
  rewrite list_elem_of_lookup. setoid_rewrite lookup_enumerate_from. split.
  - intros [n Hn]. destruct (l !! n) eqn:E; simplify_eq/=.
    split; [lia|]. by replace (k + n - k) with n by lia.
  - intros [Hk Hl]. exists (i - k). rewrite Hl; simpl.
    by replace (k + (i - k)) with i by lia.
Qed.

Lemma elem_of_enumerate {A} (l : list A) i x :
  (i, x) ∈ enumerate l ↔ l !! i = Some x.
Proof.
  unfold enumerate. rewrite elem_of_enumerate_from, Nat.sub_0_r.
  split; [by intros [_ ?] | split; [lia | done]].
Qed.

(** ** Strings *)

Lemma append_cons c (a b : string) : String c a +:+ b = String c (a +:+ b).
Proof. done. Qed.

Lemma append_nil (b : string) : "" +:+ b = b.
Proof. done. Qed.

Lemma prefix_spec (sub s : string) :
  String.prefix sub s = true ↔ ∃ post, s = sub +:+ post.
Proof.
  revert s; induction sub as [|c sub IH]; intros s; simpl.
  - split; [intros _; by exists s | by destruct s].
  - destruct s as [|d s]; [split; [done | intros [? ?]; done]|].
    change (String.prefix (String c sub) (String d s))
      with (if Ascii.ascii_dec c d then String.prefix sub s else false).
    destruct (Ascii.ascii_dec c d) as [->|Hne].
    + rewrite IH. split; intros [post H]; exists post.
      * by rewrite H.
      * rewrite append_cons in H. congruence.
    + split; [done|]. intros [post H]. rewrite append_cons in H. congruence.
Qed.

Lemma str_in_nil sub : str_in sub "" = String.prefix sub "" || false.
Proof. done. Qed.

Lemma str_in_cons sub c s :
  str_in sub (String c s) = String.prefix sub (String c s) || str_in sub s.
Proof. done. Qed.

(** [sub in s] holds exactly when [sub] occurs in [s]. *)
Lemma str_in_spec (sub s : string) :
  str_in sub s = true ↔ ∃ pre post, s = pre +:+ sub +:+ post.
Proof.
  induction s as [|c s IH];
    [rewrite str_in_nil | rewrite str_in_cons]; rewrite orb_true_iff, prefix_spec.
  - split.
    + intros [[post H]|?]; [|done]. by exists "", post.
    + intros [[|??] [post H]]; [left; by exists post|].
      rewrite append_cons in H. congruence.
  - rewrite IH. split.
    + intros [[post H]|[pre [post ->]]]; [by exists "", post|].
      by exists (String c pre), post.
    + intros [[|d pre] [post H]]; [left; by exists post|].
      right. exists pre, post. rewrite append_cons in H. congruence.
Qed.

Lemma bind_singleton_fmap {A B} (f : A → B) (l : list A) :
  l ≫= (λ x, [f x]) = f <$> l.
Proof. induction l as [|x l IH]; [done|]. by rewrite bind_cons, IH. Qed.

(** A loop that declares one resource per element and appends it. *)
Lemma for_each_map {A} (body : A → list Resource → M (list Resource))
    (f : A → Resource) (l : list A) :
  (∀ x acc s, body x acc s = (inr (acc ++ [f x]), register (f x) s)) →
  ∀ s, for_each l body [] s = (inr (f <$> l), register_all (f <$> l) s).
Proof.
  intros Hbody s.
  rewrite (for_each_flat body (λ x, [f x]) (λ x, [f x]) l) by apply Hbody.
  by rewrite bind_singleton_fmap.
Qed.

(** ** NetworkBuilder: [create_vpc] *)

Section create_vpc.

Import vpc.

(** C4. [create_vpc] accepts every address range that contains "/": it
    declares one network with that range and returns it.  It refuses every
    string without "/" (the empty string too) with the builder's
    configuration error, a [ValueError] in the source, and the stack is then
    as it was: nothing has been declared. *)
Theorem create_vpc_checks_slash (name cidr_block : string) (hostnames support : bool)
    (tags : option (gmap string string)) (s : Stack) :
  ((∃ pre post, cidr_block = pre +:+ "/" +:+ post) →
     ∃ v, create_vpc name cidr_block hostnames support tags s = (inr v, register v s)
          ∧ res_type v = Vpc ∧ res_name v = name
          ∧ res_args v !! "cidr_block" = Some (VIn (Str cidr_block)))
  ∧ (¬ (∃ pre post, cidr_block = pre +:+ "/" +:+ post) →
     create_vpc name cidr_block hostnames support tags s
       = (inl (ValueError ("Invalid CIDR block: " +:+ cidr_block)), s)).
Proof.
  rewrite <- str_in_spec. unfold create_vpc. split.
  - intros Hin. rewrite Hin.
    assert (truthy_str cidr_block = true) as ->.
    { destruct cidr_block; [discriminate Hin | done]. }
    simpl. eexists. split; [reflexivity|]. by repeat split.
  - intros Hin. apply not_true_is_false in Hin. rewrite Hin.
    by rewrite orb_true_r.
Qed.

Lemma create_vpc_checks_slash_witness :
  (∃ v, create_vpc "lab-vpc" "10.200.0.0/16" true true None empty_stack
          = (inr v, register v empty_stack)
        ∧ res_type v = Vpc ∧ res_name v = "lab-vpc"
        ∧ res_args v !! "cidr_block" = Some (VIn (Str "10.200.0.0/16")))
  ∧ create_vpc "lab-vpc" "10.200.0.0" true true None empty_stack
      = (inl (ValueError "Invalid CIDR block: 10.200.0.0"), empty_stack)
  ∧ create_vpc "lab-vpc" "" true true None empty_stack
      = (inl (ValueError "Invalid CIDR block: "), empty_stack).
Proof.
  split; [|split].
  - apply (proj1 (create_vpc_checks_slash "lab-vpc" "10.200.0.0/16" true true None empty_stack)).
    by exists "10.200.0.0", "16".
  - apply (proj2 (create_vpc_checks_slash "lab-vpc" "10.200.0.0" true true None empty_stack)).
    rewrite <- str_in_spec. vm_compute. discriminate.
  - apply (proj2 (create_vpc_checks_slash "lab-vpc" "" true true None empty_stack)).
    rewrite <- str_in_spec. vm_compute. discriminate.
Defined.

End create_vpc.

(** ** SubnetBuilder: [create_subnets] *)

Section create_subnets.

Import networking.

Variables (name_prefix : string) (vpc_id : Input) (public : bool)
          (tags : option (gmap string string)).

Lemma create_subnets_eq (cidr_blocks availability_zones : list string) (s : Stack) :
  let subnets :=
    subnet_decl name_prefix vpc_id public tags
      <$> enumerate (zip cidr_blocks availability_zones) in
  create_subnets name_prefix vpc_id cidr_blocks availability_zones public tags s
    = (inr subnets, register_all subnets s).
Proof.
  unfold create_subnets. apply for_each_map.
  by intros [i [cidr az]] acc s'.
Qed.

(** C2. Whatever the two lists, [create_subnets] raises nothing and returns
    as many subnets as the shorter list has entries; these are the
    resources it declares. *)
Theorem create_subnets_truncates (cidr_blocks availability_zones : list string) (s : Stack) :
  ∃ subnets,
    create_subnets name_prefix vpc_id cidr_blocks availability_zones public tags s
      = (inr subnets, register_all subnets s)
    ∧ length subnets = length cidr_blocks `min` length availability_zones.
Proof.
  eexists. split; [apply create_subnets_eq|].
  rewrite length_fmap. unfold enumerate.
  by rewrite length_enumerate_from, length_zip_with.
Qed.

(** C6. The subnet at index [i] of the result is named after [i] and carries
    the [i]-th range and the [i]-th zone of the inputs. *)
Theorem create_subnets_positional (cidr_blocks availability_zones : list string)
    (s : Stack) :
  ∃ subnets,
    create_subnets name_prefix vpc_id cidr_blocks availability_zones public tags s
      = (inr subnets, register_all subnets s)
    ∧ ∀ i cidr az,
        cidr_blocks !! i = Some cidr → availability_zones !! i = Some az →
        ∃ subnet,
          subnets !! i = Some subnet
          ∧ res_type subnet = Subnet
          ∧ res_name subnet = name_prefix +:+ "-" +:+ str_nat i
          ∧ res_args subnet !! "cidr_block" = Some (VIn (Str cidr))
          ∧ res_args subnet !! "availability_zone" = Some (VIn (Str az)).
Proof.
  eexists. split; [apply create_subnets_eq|].
  intros i cidr az Hc Ha.
  exists (subnet_decl name_prefix vpc_id public tags (i, (cidr, az))).
  split; [|by repeat split].
  rewrite list_lookup_fmap, lookup_enumerate, lookup_zip_with, Hc, Ha. done.
Qed.

End create_subnets.

Lemma create_subnets_positional_witness :
  ∃ subnets,
    networking.create_subnets "lab-tgw" (Str "vpc-1")
        ["10.200.255.0/24"; "10.200.254.0/24"] ["us-east-1a"; "us-east-1b"] false None
        empty_stack
      = (inr subnets, register_all subnets empty_stack)
    ∧ ∃ subnet,
        subnets !! 1 = Some subnet
        ∧ res_type subnet = Subnet
        ∧ res_name subnet = "lab-tgw-1"
        ∧ res_args subnet !! "cidr_block" = Some (VIn (Str "10.200.254.0/24"))
        ∧ res_args subnet !! "availability_zone" = Some (VIn (Str "us-east-1b")).
Proof.
  destruct (create_subnets_positional "lab-tgw" (Str "vpc-1") false None
              ["10.200.255.0/24"; "10.200.254.0/24"] ["us-east-1a"; "us-east-1b"]
              empty_stack) as [subnets [Hrun Hpos]].
  exists subnets. split; [exact Hrun|].
  apply (Hpos 1 "10.200.254.0/24" "us-east-1b"); reflexivity.
Defined.

(** ** RouteBuilder: [create_route] *)

Section create_route.

Import networking.

Lemma create_route_eq name rt dest g n p s :
  create_route name rt dest g n p s =
    match first_hop g n p with
    | Some (k, i) =>
        (inr (route_decl name rt dest k i), register (route_decl name rt dest k i) s)
    | None =>
        (inl (ValueError
           "Must specify gateway_id, nat_gateway_id, or vpc_peering_connection_id"), s)
    end.
Proof.
  destruct g as [[[|??]|?]|], n as [[[|??]|?]|], p as [[[|??]|?]|]; reflexivity.
Qed.

Lemma first_hop_cases g n p k i :
  first_hop g n p = Some (k, i) →
  truthy i = true ∧ (k, Some i) ∈ hop_args g n p ∧ k ∈ hop_keys.
Proof.
  unfold first_hop, hop_args, hop_keys; simpl.
  destruct g as [ig|]; simpl; [destruct (truthy ig) eqn:Eg; simpl|].
  1: { intros [= <- <-]. split; [done|split; set_solver]. }
  all: destruct n as [jn|]; simpl; [destruct (truthy jn) eqn:En; simpl|].
  all: try (intros [= <- <-]; split; [done|split; set_solver]).
  all: destruct p as [jp|]; simpl; [destruct (truthy jp) eqn:Ep; simpl|].
  all: try (intros [= <- <-]; split; [done|split; set_solver]).
  all: done.
Qed.

Lemma next_hops_route_decl name rt dest k i :
  k ∈ hop_keys → next_hops (route_decl name rt dest k i) = [(k, VIn i)].
Proof.
  unfold hop_keys. rewrite !elem_of_cons, elem_of_nil.
  intros [->|[->|[->|[->|[]]]]]; reflexivity.
Qed.

Lemma first_hop_None g n p : first_hop g n p = None ↔ count_usable g n p = 0.
Proof.
  unfold first_hop, count_usable, hop_args.
  destruct g as [ig|]; [destruct (truthy ig) eqn:Eg|];
  (destruct n as [jn|]; [destruct (truthy jn) eqn:En|]);
  (destruct p as [jp|]; [destruct (truthy jp) eqn:Ep|]);
  rewrite ?filter_cons, ?filter_nil; simpl; rewrite ?Eg, ?En, ?Ep; simpl;
  repeat case_decide; simpl; try done.
Qed.

(** C1, as the code has it.  [create_route] fails, with the builder's
    configuration error (a [ValueError] in the source) and nothing declared,
    exactly when none of the three next-hop arguments is non-null and
    non-empty.  With one or more of them it succeeds: it declares and returns
    one route in the given table, to the given destination, that references
    exactly one next hop, and this is one of the arguments supplied. *)
Theorem create_route_fails_iff_no_hop name rt dest g n p s :
  (count_usable g n p = 0 →
     create_route name rt dest g n p s
       = (inl (ValueError
            "Must specify gateway_id, nat_gateway_id, or vpc_peering_connection_id"), s))
  ∧ (count_usable g n p ≠ 0 →
     ∃ route k i,
       create_route name rt dest g n p s = (inr route, register route s)
       ∧ res_type route = Route
       ∧ res_args route !! "route_table_id" = Some (VIn rt)
       ∧ res_args route !! "destination_cidr_block" = Some (VIn (Str dest))
       ∧ (k, Some i) ∈ hop_args g n p
       ∧ next_hops route = [(k, VIn i)]).
Proof.
  rewrite create_route_eq, <- first_hop_None. split.
  - by intros ->.
  - intros Hsome. destruct (first_hop g n p) as [[k i]|] eqn:E; [|done].
    apply first_hop_cases in E as (_ & Harg & Hk).
    exists (route_decl name rt dest k i), k, i.
    split; [done|]. split; [done|].
    unfold hop_keys in Hk. rewrite !elem_of_cons, elem_of_nil in Hk.
    destruct Hk as [->|[->|[->|[->|[]]]]]; by repeat split.
Qed.

Lemma create_route_fails_iff_no_hop_witness :
  create_route "r" (Str "rtb-1") "0.0.0.0/0" None (Some (Str "")) None empty_stack
    = (inl (ValueError
         "Must specify gateway_id, nat_gateway_id, or vpc_peering_connection_id"),
       empty_stack)
  ∧ ∃ route k i,
      create_route "r" (Str "rtb-1") "0.0.0.0/0" (Some (Str "igw-1")) None None empty_stack
        = (inr route, register route empty_stack)
      ∧ res_type route = Route
      ∧ res_args route !! "route_table_id" = Some (VIn (Str "rtb-1"))
      ∧ res_args route !! "destination_cidr_block" = Some (VIn (Str "0.0.0.0/0"))
      ∧ (k, Some i) ∈ hop_args (Some (Str "igw-1")) None None
      ∧ next_hops route = [(k, VIn i)].
Proof.
  split.
  - apply (proj1 (create_route_fails_iff_no_hop "r" (Str "rtb-1") "0.0.0.0/0"
                    None (Some (Str "")) None empty_stack)).
    reflexivity.
  - apply (proj2 (create_route_fails_iff_no_hop "r" (Str "rtb-1") "0.0.0.0/0"
                    (Some (Str "igw-1")) None None empty_stack)).
    vm_compute. discriminate.
Defined.

(** C1, as stated, fails: with two next hops supplied the call does not fail,
    it declares a route through the first. *)
Lemma create_route_two_hops_accepted :
  count_supplied (Some (Str "igw-1")) (Some (Str "nat-1")) None = 2
  ∧ create_route "r" (Str "rtb-1") "0.0.0.0/0"
      (Some (Str "igw-1")) (Some (Str "nat-1")) None empty_stack
    = (inr (route_decl "r" (Str "rtb-1") "0.0.0.0/0" "gateway_id" (Str "igw-1")),
       register (route_decl "r" (Str "rtb-1") "0.0.0.0/0" "gateway_id" (Str "igw-1"))
         empty_stack).
Proof. split; reflexivity. Qed.

(** C8, as the code has it.  The first argument, in the order gateway_id,
    nat_gateway_id, vpc_peering_connection_id, that is non-null and non-empty
    is the route's next hop, and it is the only next hop the route carries:
    the other arguments leave no trace.  Where every supplied argument is
    non-empty, this is the first non-null argument. *)
Theorem create_route_precedence name rt dest g n p s k i :
  first_hop g n p = Some (k, i) →
  (∃ route,
     create_route name rt dest g n p s = (inr route, register route s)
     ∧ res_args route !! k = Some (VIn i)
     ∧ next_hops route = [(k, VIn i)])
  ∧ (count_usable g n p = count_supplied g n p → first_non_null g n p = Some (k, i)).
Proof.
  intros E. split.
  - rewrite create_route_eq, E.
    apply first_hop_cases in E as (_ & _ & Hk).
    exists (route_decl name rt dest k i). split; [done|].
    split; [apply lookup_insert_eq | by apply next_hops_route_decl].
  - revert E. unfold first_hop, first_non_null, count_usable, count_supplied, hop_args.
    destruct g as [ig|]; [destruct (truthy ig) eqn:Eg|];
    (destruct n as [jn|]; [destruct (truthy jn) eqn:En|]);
    (destruct p as [jp|]; [destruct (truthy jp) eqn:Ep|]);
    rewrite ?filter_cons, ?filter_nil; simpl; rewrite ?Eg, ?En, ?Ep; simpl;
    repeat case_decide; simpl; try done; try lia.
Qed.

Lemma create_route_precedence_witness :
  (∃ route,
     create_route "r" (Str "rtb-1") "0.0.0.0/0"
         None (Some (Str "nat-1")) (Some (Str "pcx-1")) empty_stack
       = (inr route, register route empty_stack)
     ∧ res_args route !! "nat_gateway_id" = Some (VIn (Str "nat-1"))
     ∧ next_hops route = [("nat_gateway_id", VIn (Str "nat-1"))])
  ∧ first_non_null None (Some (Str "nat-1")) (Some (Str "pcx-1"))
      = Some ("nat_gateway_id", Str "nat-1").
Proof.
  destruct (create_route_precedence "r" (Str "rtb-1") "0.0.0.0/0"
              None (Some (Str "nat-1")) (Some (Str "pcx-1")) empty_stack
              "nat_gateway_id" (Str "nat-1") eq_refl) as [Hrun Hfirst].
  split; [exact Hrun | apply Hfirst; reflexivity].
Defined.

(** C8, as stated, fails: an empty string is non-null, yet it is passed over
    and the next argument becomes the next hop. *)
Lemma create_route_skips_empty :
  first_non_null (Some (Str "")) (Some (Str "nat-1")) None = Some ("gateway_id", Str "")
  ∧ ∃ route s',
      create_route "r" (Str "rtb-1") "0.0.0.0/0"
          (Some (Str "")) (Some (Str "nat-1")) None empty_stack
        = (inr route, s')
      ∧ next_hops route = [("nat_gateway_id", VIn (Str "nat-1"))].
Proof. split; [reflexivity|]. eexists _, _. split; reflexivity. Qed.

End create_route.

(** ** HubBuilder *)

Section hub.

Import tgw.

(** C7, as the code has it.  [create_transit_gateway_vpc_attachment] checks
    nothing about its list of subnets: for every list, the empty one
    included, it raises no error, declares exactly one attachment and hands
    the list on as it is.  Refusing an attachment without subnets is left to
    the provider. *)
Theorem create_attachment_any_subnets (name : string) (transit_gateway_id vpc_id : Input)
    (subnet_ids : list Input) (dns_support ipv6_support appliance_mode_support : bool)
    (tags : option (gmap string string)) (s : Stack) :
  ∃ attachment,
    create_transit_gateway_vpc_attachment name transit_gateway_id vpc_id subnet_ids
        dns_support ipv6_support appliance_mode_support tags s
      = (inr attachment, register attachment s)
    ∧ res_type attachment = VpcAttachment
    ∧ res_name attachment = name
    ∧ res_args attachment !! "transit_gateway_id" = Some (VIn transit_gateway_id)
    ∧ res_args attachment !! "vpc_id" = Some (VIn vpc_id)
    ∧ res_args attachment !! "subnet_ids" = Some (VList (VIn <$> subnet_ids)).
Proof. eexists. split; [reflexivity|]. by repeat split. Qed.

(** C7, as stated, fails: with no subnet at all the attachment is declared. *)
Lemma create_attachment_without_subnets :
  ∃ attachment,
    create_transit_gateway_vpc_attachment "lab-attachment" (Str "tgw-1") (Str "vpc-1") []
        true false false None empty_stack
      = (inr attachment, register attachment empty_stack)
    ∧ res_type attachment = VpcAttachment
    ∧ res_args attachment !! "subnet_ids" = Some (VList [])
    ∧ resources (register attachment empty_stack) = [attachment].
Proof. eexists. split; [reflexivity|]. by repeat split. Qed.

(** C10, as the code has it.  [create_transit_gateway_route] always declares
    one hub route.  With [blackhole] set the route carries no attachment,
    whatever was passed; in general the attachment is included exactly when
    it is non-null, non-empty and [blackhole] is off, and it is then the
    argument itself. *)
Theorem create_tgw_route_attachment (name destination_cidr_block : string)
    (transit_gateway_route_table_id : Input)
    (transit_gateway_attachment_id : option Input) (blackhole : bool) (s : Stack) :
  ∃ route,
    create_transit_gateway_route name destination_cidr_block
        transit_gateway_route_table_id transit_gateway_attachment_id blackhole s
      = (inr route, register route s)
    ∧ res_type route = TgwRoute
    ∧ res_args route !! "blackhole" = Some (VBool blackhole)
    ∧ (blackhole = true → res_args route !! "transit_gateway_attachment_id" = None)
    ∧ (is_Some (res_args route !! "transit_gateway_attachment_id")
       ↔ truthy_opt transit_gateway_attachment_id = true ∧ blackhole = false)
    ∧ (∀ v, res_args route !! "transit_gateway_attachment_id" = Some v →
            v = of_opt transit_gateway_attachment_id).
Proof.
  eexists. split; [reflexivity|].
  match goal with |- _ ∧ _ ∧ (_ → ?x = None) ∧ _ =>
    assert (x = if truthy_opt transit_gateway_attachment_id && negb blackhole
                then Some (of_opt transit_gateway_attachment_id) else None) as ->
      by (by destruct (truthy_opt transit_gateway_attachment_id), blackhole)
  end.
  split; [done|].
  split; [by destruct (truthy_opt transit_gateway_attachment_id), blackhole|].
  destruct (truthy_opt transit_gateway_attachment_id), blackhole; simpl;
    rewrite ?is_Some_alt; intuition congruence.
Qed.

Lemma create_tgw_route_attachment_witness :
  ∃ route,
    create_transit_gateway_route "drop" "10.99.0.0/16" (Str "tgw-rtb-1")
        (Some (Str "tgw-attach-1")) true empty_stack
      = (inr route, register route empty_stack)
    ∧ res_args route !! "blackhole" = Some (VBool true)
    ∧ res_args route !! "transit_gateway_attachment_id" = None.
Proof.
  destruct (create_tgw_route_attachment "drop" "10.99.0.0/16" (Str "tgw-rtb-1")
              (Some (Str "tgw-attach-1")) true empty_stack)
    as (route & Hrun & _ & Hb & Hnone & _).
  exists route. split; [exact Hrun|]. split; [exact Hb|]. by apply Hnone.
Defined.

(** C10, as stated, fails in its second half: an empty string is non-null and
    [blackhole] is off, yet the route carries no attachment. *)
Lemma create_tgw_route_skips_empty :
  ∃ route s',
    create_transit_gateway_route "r" "10.99.0.0/16" (Str "tgw-rtb-1")
        (Some (Str "")) false empty_stack
      = (inr route, s')
    ∧ Some (Str "") ≠ None
    ∧ res_args route !! "transit_gateway_attachment_id" = None.
Proof. eexists _, _. split; [reflexivity|]. by split. Qed.

End hub.

(** ** The convenience composite: [create_tgw_with_vpc_attachments] *)

Lemma fmap_bind_list {A B C} (f : B → C) (g : A → list B) (l : list A) :
  f <$> (l ≫= g) = l ≫= (λ x, f <$> g x).
Proof.
  induction l as [|x l IH]; [done|].
  by rewrite !bind_cons, fmap_app, IH.
Qed.

Lemma length_others {A} (l : list A) (k i : nat) (x : A) :
  length (enumerate_from k l ≫= λ '(j, y), if bool_decide (i ≠ j) then [(x, y)] else [])
    = if bool_decide (k ≤ i < k + length l) then length l - 1 else length l.
Proof.
  revert k; induction l as [|y l IH]; intros k.
  - simpl. by case_bool_decide.
  - cbn [enumerate_from]. rewrite bind_cons, length_app, IH. simpl.
    repeat case_bool_decide; simpl; lia.
Qed.

Lemma length_ordered_pairs {A} (l : list A) :
  length (ordered_pairs l) = length l * (length l - 1).
Proof.
  unfold ordered_pairs.
  rewrite (length_bind_const _ (length l - 1)).
  - unfold enumerate. by rewrite length_enumerate_from.
  - intros [i x] Hix. apply elem_of_enumerate in Hix.
    apply lookup_lt_Some in Hix.
    unfold enumerate. rewrite length_others.
    rewrite bool_decide_true; [done | lia].
Qed.

Lemma elem_of_ordered_pairs {A} (l : list A) (x y : A) :
  (x, y) ∈ ordered_pairs l ↔ ∃ i j, i ≠ j ∧ l !! i = Some x ∧ l !! j = Some y.
Proof.
  unfold ordered_pairs. rewrite list_elem_of_bind. split.
  - intros [[i x'] [Hin Hi]]. apply list_elem_of_bind in Hin as [[j y'] [Hin Hj]].
    apply elem_of_enumerate in Hi, Hj.
    case_bool_decide; [|by apply elem_of_nil in Hin].
    apply list_elem_of_singleton in Hin as [= -> ->]. by exists i, j.
  - intros (i & j & Hne & Hi & Hj). exists (i, x). split.
    + apply list_elem_of_bind. exists (j, y). split.
      * rewrite bool_decide_true by done. by apply list_elem_of_singleton.
      * by apply elem_of_enumerate.
    + by apply elem_of_enumerate.
Qed.

Section composite.

Import tgw.

Variables (name_prefix tgw_description : string) (use_default_route_table : bool)
          (tags : option (gmap string string)).

Local Abbreviation the_hub :=
  (hub_decl name_prefix tgw_description use_default_route_table tags).
Local Abbreviation attachment_of :=
  (attachment_decl name_prefix tgw_description use_default_route_table tags).
Local Abbreviation route_of :=
  (return_route_decl name_prefix tgw_description use_default_route_table tags).

Lemma create_tgw_with_vpc_attachments_eq (vpc_configs : list VpcConfig) (s : Stack) :
  let attachments := attachment_of <$> vpc_configs in
  let vpc_routes := route_of <$> ordered_pairs vpc_configs in
  create_tgw_with_vpc_attachments name_prefix tgw_description vpc_configs
      use_default_route_table tags s
    = (inr (the_hub, attachments, vpc_routes),
       register_all (the_hub :: attachments ++ vpc_routes) s).
Proof.
  intros attachments vpc_routes. unfold create_tgw_with_vpc_attachments.
  rewrite (bind_inr _ _ s the_hub (register the_hub s)) by reflexivity.
  rewrite (bind_inr _ _ _ attachments (register_all attachments (register the_hub s))).
  2: { apply for_each_map. by intros vpc_config acc s'. }
  rewrite (bind_inr _ _ _ vpc_routes
             (register_all vpc_routes
                (register_all attachments (register the_hub s)))).
  { by rewrite register_one, !register_all_app. }
  set (inner := λ (i : nat) (src_vpc : VpcConfig) '((j, dst_vpc) : nat * VpcConfig),
         if bool_decide (i ≠ j) then [route_of (src_vpc, dst_vpc)] else []).
  rewrite (for_each_flat _
             (λ '(i, src_vpc), enumerate vpc_configs ≫= inner i src_vpc)
             (λ '(i, src_vpc), enumerate vpc_configs ≫= inner i src_vpc)).
  - assert (enumerate vpc_configs
              ≫= (λ '(i, src_vpc), enumerate vpc_configs ≫= inner i src_vpc)
            = vpc_routes) as ->; [|done].
    unfold vpc_routes, ordered_pairs. rewrite fmap_bind_list.
    apply list_bind_ext; [|done]. intros [i src_vpc].
    rewrite fmap_bind_list. apply list_bind_ext; [|done]. intros [j dst_vpc].
    unfold inner. by case_bool_decide.
  - intros [i src_vpc] acc s'.
    apply (for_each_flat _ (inner i src_vpc) (inner i src_vpc)).
    intros [j dst_vpc] acc' s''. unfold inner. case_bool_decide.
    + done.
    + by rewrite app_nil_r, register_all_nil.
Qed.

(** C3. For a list of K configs the composite raises nothing and declares
    one hub, then K attachments, one per config and in the order of the
    list, then K * (K - 1) routes through the hub: one for each pair of
    entries at two different positions, in the route table of the first and
    to the address range of the second. *)
Theorem create_tgw_with_vpc_attachments_counts (vpc_configs : list VpcConfig) (s : Stack) :
  ∃ hub attachments vpc_routes,
    create_tgw_with_vpc_attachments name_prefix tgw_description vpc_configs
        use_default_route_table tags s
      = (inr (hub, attachments, vpc_routes),
         register_all (hub :: attachments ++ vpc_routes) s)
    ∧ res_type hub = TransitGateway
    ∧ length attachments = length vpc_configs
    ∧ Forall (λ a, res_type a = VpcAttachment
                   ∧ res_args a !! "transit_gateway_id" = Some (VIn (id hub)))
             attachments
    ∧ (λ a, (res_args a !! "vpc_id", res_args a !! "subnet_ids")) <$> attachments
        = (λ c, (Some (VIn (vc_vpc_id c)), Some (VList (VIn <$> vc_subnet_ids c))))
            <$> vpc_configs
    ∧ length vpc_routes = length vpc_configs * (length vpc_configs - 1)
    ∧ Forall (λ r, res_type r = Route
                   ∧ next_hops r = [("transit_gateway_id", VIn (id hub))])
             vpc_routes
    ∧ (λ r, (res_args r !! "route_table_id", res_args r !! "destination_cidr_block"))
        <$> vpc_routes
        = (λ '(src_vpc, dst_vpc),
             (Some (VIn (vc_route_table_id src_vpc)), Some (VIn (Str (vc_cidr dst_vpc)))))
            <$> ordered_pairs vpc_configs.
Proof.
  eexists _, _, _. split; [apply create_tgw_with_vpc_attachments_eq|].
  split; [done|]. split; [by rewrite length_fmap|].
  split; [by apply Forall_fmap, Forall_true|].
  split; [by rewrite <- list_fmap_compose|].
  split; [by rewrite length_fmap, length_ordered_pairs|].
  split; [apply Forall_fmap, Forall_true; by intros [??]|].
  rewrite <- list_fmap_compose. apply list_fmap_ext. by intros _ [??] _.
Qed.

End composite.

(** C3 for a single network: one attachment and no route. *)
Example create_tgw_with_one_vpc :
  let lab := {| tgw.vc_name := "lab"; tgw.vc_vpc_id := Str "vpc-1";
                tgw.vc_subnet_ids := [Str "subnet-a"; Str "subnet-b"];
                tgw.vc_cidr := "10.200.0.0/16"; tgw.vc_route_table_id := Str "rtb-1" |} in
  tgw.create_tgw_with_vpc_attachments "hub" "one spoke" [lab] true None empty_stack
    = (inr (hub_decl "hub" "one spoke" true None,
            [attachment_decl "hub" "one spoke" true None lab], []),
       register_all [hub_decl "hub" "one spoke" true None;
                     attachment_decl "hub" "one spoke" true None lab] empty_stack).
Proof. reflexivity. Qed.


(** ** The two-network assembly *)

Lemma run_pair {A} (m : M A) (s : Stack) (x : A) :
  (m s).1 = inr x → m s = (inr x, (m s).2).
Proof. destruct (m s) as [r s']; simpl. by intros ->. Qed.

Section assembly.

Variable to_int : string → option Z.
Variable to_bool : string → option bool.

(** C5. With the two networks on 10.200.0.0/16 and 10.201.0.0/16 (the
    defaults) and settings pulumi.Config can read, the script runs to its end
    and its stack holds one hub and exactly two routes that point at a hub:
    the first lies in the route table of the first network and leads to
    10.201.0.0/16, the second lies in the route table of the second network
    and leads to 10.200.0.0/16, and both name the one hub as next hop. *)
Theorem main_hub_routes (e : Env) (asn : option Z) (flag : option bool) :
  or_str (settings e !! "lab_vpc_cidr") "10.200.0.0/16" = "10.200.0.0/16" →
  or_str (settings e !! "dev_vpc_cidr") "10.201.0.0/16" = "10.201.0.0/16" →
  get_int to_int (settings e) "tgw_asn" = inr asn →
  get_bool to_bool (settings e) "tgw_use_default_rt" = inr flag →
  let project_name := get_project e in
  let out ty name := {| out_type := ty; out_name := name; out_attr := "id" |} in
  let lab_vpc := out Vpc (project_name +:+ "-lab-vpc") in
  let dev_vpc := out Vpc (project_name +:+ "-dev-vpc") in
  let lab_route_table := out RouteTable ((project_name +:+ "-lab-workload") +:+ "-0") in
  let dev_route_table := out RouteTable ((project_name +:+ "-dev-workload") +:+ "-0") in
  let hub := out TransitGateway (project_name +:+ "-tgw") in
  ∃ s,
    main to_int to_bool e empty_stack = (inr tt, s)
    ∧ (λ r, (attr r "id", res_args r !! "cidr_block")) <$> of_type Vpc s
        = [(lab_vpc, Some (VIn (Str "10.200.0.0/16")));
           (dev_vpc, Some (VIn (Str "10.201.0.0/16")))]
    ∧ (λ r, (attr r "id", res_args r !! "vpc_id")) <$> of_type RouteTable s
        = [(lab_route_table, Some (VIn (Ref lab_vpc)));
           (dev_route_table, Some (VIn (Ref dev_vpc)))]
    ∧ (λ r, attr r "id") <$> of_type TransitGateway s = [hub]
    ∧ hub_routes s = [
        {| res_type := Route;
           res_name := project_name +:+ "-lab-to-dev-via-tgw";
           res_args := kwargs [
             ("route_table_id", VIn (Ref lab_route_table));
             ("destination_cidr_block", VIn (Str "10.201.0.0/16"));
             ("transit_gateway_id", VIn (Ref hub))] |};
        {| res_type := Route;
           res_name := project_name +:+ "-dev-to-lab-via-tgw";
           res_args := kwargs [
             ("route_table_id", VIn (Ref dev_route_table));
             ("destination_cidr_block", VIn (Str "10.200.0.0/16"));
             ("transit_gateway_id", VIn (Ref hub))] |}].
Proof.
  intros Hlab Hdev Hasn Hflag project_name out lab_vpc dev_vpc
         lab_route_table dev_route_table hub.
  exists (main to_int to_bool e empty_stack).2.
  split; [apply run_pair|];
    subst project_name out lab_vpc dev_vpc lab_route_table dev_route_table hub;
    unfold main, get; rewrite Hlab, Hdev, Hasn, Hflag;
    destruct e as [project stack cfg ami];
    cbn [get_project get_stack settings get_ami] in *;
    clear Hlab Hdev Hasn Hflag;
    generalize (or_str (cfg !! "lab_subnet_cidr") "10.200.10.0/24");
    generalize (or_str (cfg !! "lab_tgw_subnet_a_cidr") "10.200.255.0/24");
    generalize (or_str (cfg !! "lab_tgw_subnet_b_cidr") "10.200.254.0/24");
    generalize (or_str (cfg !! "dev_subnet_cidr") "10.201.10.0/24");
    generalize (or_str (cfg !! "dev_tgw_subnet_a_cidr") "10.201.255.0/24");
    generalize (or_str (cfg !! "dev_tgw_subnet_b_cidr") "10.201.254.0/24");
    generalize (or_str (cfg !! "instance_type") "t3.micro");
    generalize (or_str (cfg !! "aws:region") "us-east-1");
    generalize (cfg !! "key_name");
    intros; vm_compute; repeat split.
Qed.

(** C9, as the code has it.  The declared stack is a function of what the
    script reads: two runs that read the same settings, under the same
    project and stack names, and that get the same image from the lookup
    end alike and declare the same resources and outputs. *)
Theorem main_deterministic (e1 e2 : Env) :
  same_inputs e1 e2 → main to_int to_bool e1 = main to_int to_bool e2.
Proof.
  destruct e1 as [project1 stack1 cfg1 ami1], e2 as [project2 stack2 cfg2 ami2].
  unfold same_inputs, same_settings; simpl.
  intros (Hall & -> & -> & ->).
  unfold config_keys in Hall. repeat (apply Forall_cons in Hall as [? Hall]).
  unfold main, get, get_int, get_bool; simpl.
  repeat match goal with H : cfg1 !! _ = cfg2 !! _ |- _ => rewrite H; clear H end.
  reflexivity.
Qed.

End assembly.

Definition tutorial_env : Env :=
  {| get_project := "tgw-hub"; get_stack := "dev"; settings := ∅;
     get_ami := "ami-0aaa" |}.

Lemma main_hub_routes_witness :
  ∃ s,
    main (λ _, None) (λ _, None) tutorial_env empty_stack = (inr tt, s)
    ∧ (λ r, (res_name r, res_args r !! "destination_cidr_block")) <$> hub_routes s
        = [("tgw-hub-lab-to-dev-via-tgw", Some (VIn (Str "10.201.0.0/16")));
           ("tgw-hub-dev-to-lab-via-tgw", Some (VIn (Str "10.200.0.0/16")))].
Proof.
  destruct (main_hub_routes (λ _, None) (λ _, None) tutorial_env None None
              eq_refl eq_refl eq_refl eq_refl)
    as (s & Hrun & _ & _ & _ & Hroutes).
  exists s. split; [exact Hrun|]. rewrite Hroutes. reflexivity.
Defined.

(** A run with one more setting, which the script never reads. *)
Definition tutorial_env_extra : Env :=
  {| get_project := "tgw-hub"; get_stack := "dev";
     settings := {[ "owner" := "netops" ]}; get_ami := "ami-0aaa" |}.

Lemma main_deterministic_witness :
  settings tutorial_env ≠ settings tutorial_env_extra
  ∧ main (λ _, None) (λ _, None) tutorial_env
      = main (λ _, None) (λ _, None) tutorial_env_extra.
Proof.
  split.
  - intros H. apply (f_equal (λ m : gmap string string, m !! "owner")) in H.
    vm_compute in H. discriminate H.
  - apply main_deterministic. split; [|done].
    unfold same_settings, config_keys. repeat constructor.
Defined.

(** A run at a later date, when the lookup finds a newer image. *)
Definition tutorial_env_later : Env :=
  {| get_project := "tgw-hub"; get_stack := "dev"; settings := ∅;
     get_ami := "ami-0bbb" |}.

(** C9, as stated, fails: two runs with the same settings, here even under
    the same project and stack names, declare different instances when the
    image lookup answers differently. *)
Lemma main_depends_on_image :
  settings tutorial_env = settings tutorial_env_later
  ∧ get_project tutorial_env = get_project tutorial_env_later
  ∧ get_stack tutorial_env = get_stack tutorial_env_later
  ∧ (main (λ _, None) (λ _, None) tutorial_env empty_stack).1 = inr tt
  ∧ (main (λ _, None) (λ _, None) tutorial_env_later empty_stack).1 = inr tt
  ∧ (main (λ _, None) (λ _, None) tutorial_env empty_stack).2
      ≠ (main (λ _, None) (λ _, None) tutorial_env_later empty_stack).2.
Proof.
  repeat split; try (vm_compute; reflexivity).
  intros H.
  apply (f_equal (λ s, (λ r, res_args r !! "ami") <$> of_type Instance s)) in H.
  vm_compute in H. discriminate H.
Qed.

(** * Further properties of the builders *)

(** ** Names and tags *)

Lemma fst_enumerate_from {A} (l : list A) k :
  (enumerate_from k l).*1 = seq k (length l).
Proof. revert k; induction l as [|x l IH]; intros k; simpl; [done|]. by rewrite IH. Qed.

#[global] Instance indexed_name_inj (name_prefix : string) :
  Inj (=) (=) (λ i : nat, name_prefix +:+ "-" +:+ str_nat i).
Proof.
  intros i j H. apply (inj (String.append name_prefix)) in H.
  rewrite !append_cons, !append_nil in H. injection H as H.
  by apply (inj pretty) in H.
Qed.

(** [{"Name": name, **tags}], key by key: an entry of the caller stays, and
    only a caller without a "Name" gets the default one. *)
Lemma named_tags_lookup (name : string) (tags : option (gmap string string)) (k : string) :
  named_tags name tags !! k =
    match default ∅ tags !! k with
    | Some v => Some v
    | None => if decide (k = "Name") then Some name else None
    end.
Proof.
  unfold named_tags. rewrite lookup_union.
  destruct (default ∅ tags !! k) as [v|] eqn:E; simpl.
  - by destruct ({[ "Name" := name ]} !! k).
  - case_decide as Hk; [subst k; by rewrite lookup_singleton_eq|].
    by rewrite lookup_singleton_ne.
Qed.

Section more_networking.

Import networking.

Variables (name_prefix : string) (vpc_id : Input) (tags : option (gmap string string)).

(** X1. The names of the subnets one call declares are pairwise different. *)
Theorem create_subnets_names_distinct (public : bool)
    (cidr_blocks availability_zones : list string) (s : Stack) :
  ∃ subnets,
    create_subnets name_prefix vpc_id cidr_blocks availability_zones public tags s
      = (inr subnets, register_all subnets s)
    ∧ NoDup (res_name <$> subnets).
Proof.
  eexists. split; [apply create_subnets_eq|].
  rewrite <- list_fmap_compose.
  rewrite (list_fmap_ext _ ((λ i, name_prefix +:+ "-" +:+ str_nat i) ∘ fst)
             (enumerate (zip cidr_blocks availability_zones)))
    by (by intros ? [? [??]] ?).
  rewrite list_fmap_compose. apply (NoDup_fmap_2 _).
  unfold enumerate. rewrite fst_enumerate_from. apply NoDup_seq.
Qed.

(** X2. Every subnet keeps all the tags of the caller.  Its "Name" tag is
    the caller's when the caller passes one, the same for all the subnets of
    the call, and the subnet's own indexed name otherwise. *)
Theorem create_subnets_tags (public : bool)
    (cidr_blocks availability_zones : list string) (s : Stack) :
  ∃ subnets,
    create_subnets name_prefix vpc_id cidr_blocks availability_zones public tags s
      = (inr subnets, register_all subnets s)
    ∧ ∀ i subnet, subnets !! i = Some subnet →
        ∃ t, tags_of subnet = Some t
          ∧ (∀ k v, default ∅ tags !! k = Some v → t !! k = Some v)
          ∧ (default ∅ tags !! "Name" = None →
               t !! "Name" = Some (name_prefix +:+ "-" +:+ str_nat i))
          ∧ (∀ k, k ≠ "Name" → default ∅ tags !! k = None → t !! k = None).
Proof.
  eexists. split; [apply create_subnets_eq|].
  intros i subnet Hi.
  rewrite list_lookup_fmap, lookup_enumerate in Hi.
  destruct (zip cidr_blocks availability_zones !! i) as [[cidr az]|]; [|done].
  injection Hi as <-.
  exists (named_tags (name_prefix +:+ "-" +:+ str_nat i) tags).
  split; [done|]. repeat split.
  - intros k v Hk. by rewrite named_tags_lookup, Hk.
  - intros Hk. by rewrite named_tags_lookup, Hk.
  - intros k Hne Hk. rewrite named_tags_lookup, Hk. by case_decide.
Qed.

Lemma create_route_tables_eq (count : Z) (s : Stack) :
  let tables := route_table_decl name_prefix vpc_id tags <$> seq 0 (Z.to_nat count) in
  create_route_tables name_prefix vpc_id count tags s
    = (inr tables, register_all tables s).
Proof. unfold create_route_tables. apply for_each_map. by intros i acc s'. Qed.

(** X3. [create_route_tables] never raises.  For a positive [count] it
    declares that many route tables in the network, named after their index,
    under pairwise different names; for a zero or negative [count] it
    declares nothing and returns the empty list. *)
Theorem create_route_tables_count (count : Z) (s : Stack) :
  ∃ tables,
    create_route_tables name_prefix vpc_id count tags s
      = (inr tables, register_all tables s)
    ∧ Z.of_nat (length tables) = (count `max` 0)%Z
    ∧ ((count ≤ 0)%Z → tables = [] ∧ register_all tables s = s)
    ∧ NoDup (res_name <$> tables)
    ∧ ∀ i, (Z.of_nat i < count)%Z →
        ∃ rt, tables !! i = Some rt
          ∧ res_type rt = RouteTable
          ∧ res_name rt = name_prefix +:+ "-" +:+ str_nat i
          ∧ res_args rt !! "vpc_id" = Some (VIn vpc_id).
Proof.
  eexists. split; [apply create_route_tables_eq|]. repeat split.
  - rewrite length_fmap, length_seq. lia.
  - replace (Z.to_nat count) with 0 by lia. done.
  - replace (Z.to_nat count) with 0 by lia. apply register_all_nil.
  - rewrite <- list_fmap_compose. apply (NoDup_fmap_2 _), NoDup_seq.
  - intros i Hi. exists (route_table_decl name_prefix vpc_id tags i).
    split; [|done]. rewrite list_lookup_fmap, lookup_seq_lt by lia. done.
Qed.

(** X4. [create_nat_gateway] never raises.  It declares an elastic IP and
    then a NAT gateway, in this order, and the gateway it returns is
    allocated the very elastic IP it returns with it. *)
Theorem create_nat_gateway_wiring (name : string) (subnet_id : Input) (s : Stack) :
  ∃ nat_gateway eip,
    create_nat_gateway name subnet_id tags s
      = (inr (nat_gateway, eip), register_all [eip; nat_gateway] s)
    ∧ res_type eip = Eip ∧ res_name eip = name +:+ "-eip"
    ∧ res_type nat_gateway = NatGateway ∧ res_name nat_gateway = name
    ∧ res_args nat_gateway !! "allocation_id" = Some (VIn (id eip))
    ∧ res_args nat_gateway !! "subnet_id" = Some (VIn subnet_id).
Proof.
  eexists _, _. split.
  - unfold create_nat_gateway.
    erewrite bind_inr by reflexivity. erewrite bind_inr by reflexivity.
    by rewrite !register_one, register_all_app.
  - by repeat split.
Qed.

End more_networking.

Lemma create_subnets_tags_witness :
  ∃ subnets,
    networking.create_subnets "lab-workload" (Str "vpc-1")
        ["10.200.10.0/24"; "10.200.11.0/24"] ["us-east-1a"; "us-east-1b"] false
        (Some {[ "Name" := "workload"; "Type" := "Workload" ]}) empty_stack
      = (inr subnets, register_all subnets empty_stack)
    ∧ ∃ subnet t,
        subnets !! 1 = Some subnet
        ∧ res_name subnet = "lab-workload-1"
        ∧ tags_of subnet = Some t
        ∧ t !! "Name" = Some "workload"
        ∧ t !! "Type" = Some "Workload"
        ∧ t !! "Owner" = None.
Proof.
  destruct (create_subnets_tags "lab-workload" (Str "vpc-1")
              (Some {[ "Name" := "workload"; "Type" := "Workload" ]}) false
              ["10.200.10.0/24"; "10.200.11.0/24"] ["us-east-1a"; "us-east-1b"]
              empty_stack) as (subnets & Hrun & Htags).
  exists subnets. split; [exact Hrun|].
  injection Hrun as Hsub _.
  assert (is_Some (subnets !! 1)) as [subnet Hsubnet].
  { rewrite <- Hsub. by eexists. }
  destruct (Htags 1 subnet Hsubnet) as (t & Ht & Hkeep & _ & Hnone).
  exists subnet, t. split; [exact Hsubnet|].
  split; [by rewrite <- Hsub in Hsubnet; injection Hsubnet as <-|].
  split; [exact Ht|].
  split; [by apply Hkeep|]. split; [by apply Hkeep|]. by apply Hnone.
Defined.

Lemma create_route_tables_count_witness :
  (∃ tables,
     networking.create_route_tables "lab-workload" (Str "vpc-1") (-2) None empty_stack
       = (inr tables, register_all tables empty_stack)
     ∧ tables = [])
  ∧ ∃ tables rt,
      networking.create_route_tables "lab-workload" (Str "vpc-1") 2 None empty_stack
        = (inr tables, register_all tables empty_stack)
      ∧ tables !! 1 = Some rt
      ∧ res_type rt = RouteTable
      ∧ res_name rt = "lab-workload-1".
Proof.
  split.
  - destruct (create_route_tables_count "lab-workload" (Str "vpc-1") None (-2) empty_stack)
      as (tables & Hrun & _ & Hneg & _).
    exists tables. split; [exact Hrun|]. apply Hneg. lia.
  - destruct (create_route_tables_count "lab-workload" (Str "vpc-1") None 2 empty_stack)
      as (tables & Hrun & _ & _ & _ & Hpos).
    destruct (Hpos 1) as (rt & Hrt & Hty & Hname & _); [lia|].
    by exists tables, rt.
Defined.

(** ** Routes, with and without a hub *)

Section more_routes.

Import networking tgw.

(** X5. No call of [create_route] yields a route through a hub: whatever the
    arguments, a route it returns has no [transit_gateway_id].  Such routes
    come from [add_tgw_route_to_vpc_route_table] alone, which never raises
    and declares a route whose only next hop is the hub it is given. *)
Theorem create_route_never_through_hub (name : string) (route_table_id : Input)
    (destination_cidr_block : string) :
  (∀ g n p s route s',
     create_route name route_table_id destination_cidr_block g n p s = (inr route, s') →
     res_args route !! "transit_gateway_id" = None ∧ hub_routes s' = hub_routes s)
  ∧ (∀ transit_gateway_id s,
       ∃ route,
         add_tgw_route_to_vpc_route_table name route_table_id destination_cidr_block
             transit_gateway_id s
           = (inr route, register route s)
         ∧ next_hops route = [("transit_gateway_id", VIn transit_gateway_id)]
         ∧ hub_routes (register route s) = hub_routes s ++ [route]).
Proof.
  split.
  - intros g n p s route s'. rewrite create_route_eq.
    destruct (first_hop g n p) as [[k i]|] eqn:E; [|done].
    intros [= <- <-]. apply first_hop_cases in E as (_ & Harg & _).
    assert (res_args (route_decl name route_table_id destination_cidr_block k i)
              !! "transit_gateway_id" = None) as Hnone.
    { unfold hop_args in Harg. rewrite !elem_of_cons, elem_of_nil in Harg.
      destruct Harg as [[= -> _]|[[= -> _]|[[= -> _]|[]]]]; reflexivity. }
    split; [done|].
    unfold hub_routes, register; simpl. rewrite filter_app, filter_cons_False, filter_nil.
    + by rewrite app_nil_r.
    + rewrite Hnone. by intros [_ [? [=]]].
  - intros transit_gateway_id s. eexists. split; [reflexivity|]. split; [done|].
    unfold hub_routes, register; simpl. rewrite filter_app, filter_cons_True, filter_nil.
    + done.
    + split; [done|]. by eexists.
Qed.

Lemma create_route_never_through_hub_witness :
  ∃ route s',
    create_route "lab-igw-route" (Str "rtb-1") "0.0.0.0/0"
        (Some (Str "igw-1")) None None empty_stack
      = (inr route, s')
    ∧ res_args route !! "transit_gateway_id" = None
    ∧ hub_routes s' = [].
Proof.
  eexists _, _. split; [reflexivity|].
  apply (proj1 (create_route_never_through_hub "lab-igw-route" (Str "rtb-1") "0.0.0.0/0")
           (Some (Str "igw-1")) None None empty_stack).
  reflexivity.
Defined.

End more_routes.

(** ** The hub and the composite *)

Section more_hub.

Import tgw.

(** X6. [create_transit_gateway] never raises and checks none of its
    arguments: the ASN goes to the engine as it comes, whatever integer it
    is.  The description the hub is declared with is never empty: a missing
    or empty one is replaced by "Transit Gateway " followed by the name.
    Each of the four switches becomes "enable" or "disable". *)
Theorem create_transit_gateway_settings (name : string) (description : option string)
    (amazon_side_asn : Z) (association propagation dns_support vpn_ecmp_support : bool)
    (tags : option (gmap string string)) (s : Stack) :
  ∃ hub d,
    create_transit_gateway name description amazon_side_asn association propagation
        dns_support vpn_ecmp_support tags s
      = (inr hub, register hub s)
    ∧ res_type hub = TransitGateway ∧ res_name hub = name
    ∧ res_args hub !! "amazon_side_asn" = Some (VInt amazon_side_asn)
    ∧ res_args hub !! "description" = Some (VIn (Str d))
    ∧ d ≠ ""
    ∧ (∀ x, description = Some x → x ≠ "" → d = x)
    ∧ (description = None ∨ description = Some "" → d = "Transit Gateway " +:+ name)
    ∧ (λ k, res_args hub !! k)
        <$> ["default_route_table_association"; "default_route_table_propagation";
             "dns_support"; "vpn_ecmp_support"]
        = (λ b : bool, Some (VIn (Str (if b then "enable" else "disable"))))
            <$> [association; propagation; dns_support; vpn_ecmp_support].
Proof.
  eexists _, _. split; [reflexivity|]. do 4 (split; [done|]).
  split; [|split; [|split]].
  - destruct description as [[|c x]|]; simpl; [| |]; try done;
      by rewrite append_cons.
  - intros x -> Hx. by destruct x.
  - by intros [->| ->].
  - done.
Qed.

Lemma create_transit_gateway_settings_witness :
  ∃ hub,
    create_transit_gateway "hub" (Some "") 0 true false true true None empty_stack
      = (inr hub, register hub empty_stack)
    ∧ res_args hub !! "amazon_side_asn" = Some (VInt 0)
    ∧ res_args hub !! "description" = Some (VIn (Str "Transit Gateway hub")).
Proof.
  destruct (create_transit_gateway_settings "hub" (Some "") 0 true false true true None
              empty_stack) as (hub & d & Hrun & _ & _ & Hasn & Hd & _ & _ & Hdefault & _).
  exists hub. split; [exact Hrun|]. split; [exact Hasn|].
  rewrite Hd, Hdefault; [reflexivity | by right].
Defined.

Variables (name_prefix tgw_description : string) (use_default_route_table : bool)
          (tags : option (gmap string string)).

(** X7. In the composite every attachment carries the tag "VPC" with the
    name of its config, also over a "VPC" tag of the caller, and keeps the
    caller's other tags; the hub carries the caller's tags as they are, and
    the routes carry no tags. *)
Theorem create_tgw_with_vpc_attachments_tags (vpc_configs : list VpcConfig) (s : Stack) :
  ∃ hub attachments vpc_routes,
    create_tgw_with_vpc_attachments name_prefix tgw_description vpc_configs
        use_default_route_table tags s
      = (inr (hub, attachments, vpc_routes),
         register_all (hub :: attachments ++ vpc_routes) s)
    ∧ tags_of hub = Some (default ∅ tags)
    ∧ Forall (λ r, tags_of r = None) vpc_routes
    ∧ ∀ i vpc_config, vpc_configs !! i = Some vpc_config →
        ∃ attachment t,
          attachments !! i = Some attachment
          ∧ tags_of attachment = Some t
          ∧ t !! "VPC" = Some (vc_name vpc_config)
          ∧ ∀ k, k ≠ "VPC" → t !! k = default ∅ tags !! k.
Proof.
  eexists _, _, _. split; [apply create_tgw_with_vpc_attachments_eq|].
  split; [done|]. split; [apply Forall_fmap, Forall_true; by intros [??]|].
  intros i vpc_config Hi. eexists _, _.
  split; [by rewrite list_lookup_fmap, Hi|]. split; [reflexivity|].
  destruct (truthy_dict tags) eqn:Htags; simpl.
  - split; [apply lookup_insert_eq|]. intros k Hk. by apply lookup_insert_ne.
  - split; [apply lookup_singleton_eq|]. intros k Hk.
    rewrite lookup_singleton_ne by done.
    destruct tags as [t|]; simpl in *; [|done].
    apply bool_decide_eq_false in Htags. apply dec_stable in Htags. by subst t.
Qed.

End more_hub.

Lemma create_tgw_with_vpc_attachments_tags_witness :
  let lab := {| tgw.vc_name := "lab"; tgw.vc_vpc_id := Str "vpc-1";
                tgw.vc_subnet_ids := [Str "subnet-a"];
                tgw.vc_cidr := "10.200.0.0/16"; tgw.vc_route_table_id := Str "rtb-1" |} in
  let tags : gmap string string := {[ "VPC" := "shared"; "Owner" := "netops" ]} in
  ∃ hub attachments vpc_routes attachment t,
    tgw.create_tgw_with_vpc_attachments "hub" "one spoke" [lab] true (Some tags) empty_stack
      = (inr (hub, attachments, vpc_routes),
         register_all (hub :: attachments ++ vpc_routes) empty_stack)
    ∧ attachments !! 0 = Some attachment
    ∧ tags_of attachment = Some t
    ∧ t !! "VPC" = Some "lab"
    ∧ t !! "Owner" = Some "netops".
Proof.
  intros lab tags.
  destruct (create_tgw_with_vpc_attachments_tags "hub" "one spoke" true (Some tags) [lab]
              empty_stack) as (hub & attachments & vpc_routes & Hrun & _ & _ & Hatt).
  destruct (Hatt 0 lab eq_refl) as (attachment & t & Ha & Ht & Hvpc & Hother).
  exists hub, attachments, vpc_routes, attachment, t.
  split; [exact Hrun|]. split; [exact Ha|]. split; [exact Ht|].
  split; [exact Hvpc|]. by rewrite Hother.
Defined.

(** * Further properties of the assembly script *)

Lemma lift_inl {A B} (err : Exception) (f : A → M B) (s : Stack) :
  (lift (inl err) ≫= f) s = (inl err, s).
Proof. done. Qed.

Lemma slash_truthy (c : string) : str_in "/" c = true → truthy_str c = true.
Proof. by destruct c. Qed.

(** Unfold the script at a destructured environment. *)
Ltac open_main e :=
  unfold lab_vpc_cidr, dev_vpc_cidr in *;
  destruct e as [project stack cfg ami];
  unfold main, get, vpc.create_vpc;
  cbn [get_project get_stack settings get_ami] in *.

(** Name the settings the script only passes on. *)
Ltac name_settings cfg :=
  generalize (or_str (cfg !! "lab_subnet_cidr") "10.200.10.0/24");
  generalize (or_str (cfg !! "lab_tgw_subnet_a_cidr") "10.200.255.0/24");
  generalize (or_str (cfg !! "lab_tgw_subnet_b_cidr") "10.200.254.0/24");
  generalize (or_str (cfg !! "dev_subnet_cidr") "10.201.10.0/24");
  generalize (or_str (cfg !! "dev_tgw_subnet_a_cidr") "10.201.255.0/24");
  generalize (or_str (cfg !! "dev_tgw_subnet_b_cidr") "10.201.254.0/24");
  generalize (or_str (cfg !! "instance_type") "t3.micro");
  generalize (or_str (cfg !! "aws:region") "us-east-1");
  generalize (cfg !! "key_name");
  intros.

(** Name the two network ranges, with what is known of them. *)
Ltac name_ranges cfg Hlab Hdev :=
  revert Hlab Hdev;
  generalize (or_str (cfg !! "lab_vpc_cidr") "10.200.0.0/16");
  generalize (or_str (cfg !! "dev_vpc_cidr") "10.201.0.0/16");
  intros dev lab Hlab Hdev.

(** Run the script where both ranges contain "/" and the settings are
    readable. *)
Ltac run_main e Hasn Hflag Hlab Hdev :=
  open_main e; rewrite Hasn, Hflag; clear Hasn Hflag;
  lazymatch goal with
  | cfg : gmap string string |- _ =>
      name_ranges cfg Hlab Hdev;
      rewrite Hlab, Hdev, (slash_truthy _ Hlab), (slash_truthy _ Hdev);
      clear Hlab Hdev; name_settings cfg
  end.


Lemma run_pair_gen {A} (m : M A) (s : Stack) (r : Exception + A) :
  (m s).1 = r → m s = (r, (m s).2).
Proof. destruct (m s) as [r' s']; simpl. by intros ->. Qed.

(** Start a property of a full run: the final stack is the run's. *)
Ltac full_run e Hasn Hflag Hlab Hdev :=
  eexists (main _ _ e empty_stack).2;
  split; [apply run_pair|]; run_main e Hasn Hflag Hlab Hdev; vm_compute.

Lemma refs_resolve (rs : list Resource) (os : list Output) (js : list nat) :
  (Some ∘ ref_urn) <$> os = (λ j, urn <$> rs !! j) <$> js →
  Forall2 (λ o j, ∃ r', rs !! j = Some r' ∧ urn r' = ref_urn o) os js.
Proof.
  revert js; induction os as [|o os IH]; intros [|j js] H; simplify_eq/=;
    constructor; [|by apply IH].
  destruct (rs !! j) as [r'|]; simplify_eq/=. by exists r'.
Qed.

Lemma declared_before_table (rs : list Resource) (targets : list (list nat)) :
  (λ r, (Some ∘ ref_urn) <$> resource_refs r) <$> rs
    = (fmap (λ j, urn <$> rs !! j)) <$> targets →
  Forall2 (λ i js, Forall (λ j, j < i) js) (seq 0 (length rs)) targets →
  declared_before rs.
Proof.
  intros Hrefs Hlt i r Hi.
  apply (f_equal (.!! i)) in Hrefs. rewrite !list_lookup_fmap, Hi in Hrefs.
  destruct (targets !! i) as [js|] eqn:Hjs; simplify_eq/=.
  apply refs_resolve in Hrefs.
  assert (Forall (λ j, j < i) js) as Hjs'.
  { apply (Forall2_lookup_lr _ _ _ i i js Hlt); [|done].
    apply lookup_seq_lt. by apply lookup_lt_Some in Hi. }
  clear Hjs Hlt. induction Hrefs as [|o j os js (r' & Hr' & Hurn) _ IH]; [done|].
  apply Forall_cons in Hjs' as [Hj Hjs']. constructor; [|by apply IH].
  by exists j, r'.
Qed.

Lemma declared_in_table (rs : list Resource) (vs : list Value) (targets : list (list nat)) :
  (λ v, (Some ∘ ref_urn) <$> refs_of v) <$> vs
    = (fmap (λ j, urn <$> rs !! j)) <$> targets →
  Forall (λ v, Forall (declared_in rs) (refs_of v)) vs.
Proof.
  intros Hrefs. apply Forall_lookup. intros i v Hi.
  apply (f_equal (.!! i)) in Hrefs. rewrite !list_lookup_fmap, Hi in Hrefs.
  destruct (targets !! i) as [js|] eqn:Hjs; simplify_eq/=.
  apply refs_resolve in Hrefs. clear Hi Hjs.
  induction Hrefs as [|o j os js (r' & Hr' & Hurn) _ IH]; constructor; [|exact IH].
  exists r'. split; [|done]. by eapply list_elem_of_lookup_2.
Qed.

Lemma append_assoc_3 (a b c : string) : (a +:+ b) +:+ c = a +:+ (b +:+ c).
Proof. induction a as [|x a IH]; [done|]. by rewrite !append_cons, IH. Qed.

#[global] Instance urn_prefix_inj (p : string) :
  Inj (=) (=) (λ x : ResourceType * string, (x.1, p +:+ x.2)).
Proof. intros [t a] [t' b] [= -> H]. by apply (inj (String.append p)) in H as ->. Qed.

Section more_assembly.

Variable to_int : string → option Z.
Variable to_bool : string → option bool.

(** X8. The script runs to its end exactly when pulumi.Config can read the
    two typed settings and both network ranges contain "/".  It then has
    declared 25 resources and exported 22 outputs. *)
Theorem main_succeeds_iff (e : Env) :
  let run := main to_int to_bool e empty_stack in
  (run.1 = inr tt ↔
     (∃ asn, get_int to_int (settings e) "tgw_asn" = inr asn)
     ∧ (∃ flag, get_bool to_bool (settings e) "tgw_use_default_rt" = inr flag)
     ∧ str_in "/" (lab_vpc_cidr e) = true
     ∧ str_in "/" (dev_vpc_cidr e) = true)
  ∧ (run.1 = inr tt → length (resources run.2) = 25 ∧ length (outputs run.2) = 22).
Proof.
  intros run; subst run.
  destruct (get_int to_int (settings e) "tgw_asn") as [err|asn] eqn:Hasn.
  { open_main e. rewrite Hasn, lift_inl.
    split; [split|]; [intros [=] | by intros [[? [=]] _] | intros [=]]. }
  destruct (get_bool to_bool (settings e) "tgw_use_default_rt") as [err|flag] eqn:Hflag.
  { open_main e. rewrite Hasn, Hflag. clear Hasn Hflag.
    generalize (or_str (cfg !! "lab_vpc_cidr") "10.200.0.0/16").
    generalize (or_str (cfg !! "dev_vpc_cidr") "10.201.0.0/16").
    name_settings cfg.
    split; [split|];
      [vm_compute; intros [=] | by intros (_ & [? [=]] & _) | vm_compute; intros [=]]. }
  destruct (str_in "/" (lab_vpc_cidr e)) eqn:Hlab.
  2: { open_main e. rewrite Hasn, Hflag, Hlab, orb_true_r. clear Hasn Hflag Hlab.
       generalize (or_str (cfg !! "lab_vpc_cidr") "10.200.0.0/16").
       generalize (or_str (cfg !! "dev_vpc_cidr") "10.201.0.0/16").
       name_settings cfg.
       split; [split|];
         [vm_compute; intros [=] | by intros (_ & _ & [=] & _) | vm_compute; intros [=]]. }
  destruct (str_in "/" (dev_vpc_cidr e)) eqn:Hdev.
  2: { open_main e. rewrite Hasn, Hflag; clear Hasn Hflag.
       name_ranges cfg Hlab Hdev.
       rewrite Hlab, Hdev, (slash_truthy _ Hlab), orb_true_r.
       clear Hlab Hdev; name_settings cfg.
       split; [split|];
         [vm_compute; intros [=] | by intros (_ & _ & _ & [=]) | vm_compute; intros [=]]. }
  run_main e Hasn Hflag Hlab Hdev.
  split; [split|];
    [intros _; repeat split; by eexists
    | intros _; vm_compute; reflexivity
    | intros _; vm_compute; split; reflexivity].
Qed.

(** X9. A typed setting that pulumi.Config cannot read, or a first network
    range without "/", stops the script before anything is declared: the
    stack is still empty. *)
Theorem main_aborts_clean (e : Env) :
  let run := main to_int to_bool e empty_stack in
  (∀ v, settings e !! "tgw_asn" = Some v → to_int v = None →
     run = (inl (ConfigTypeError "tgw_asn"), empty_stack))
  ∧ (∀ asn v,
       get_int to_int (settings e) "tgw_asn" = inr asn →
       settings e !! "tgw_use_default_rt" = Some v → to_bool v = None →
       run = (inl (ConfigTypeError "tgw_use_default_rt"), empty_stack))
  ∧ (∀ asn flag,
       get_int to_int (settings e) "tgw_asn" = inr asn →
       get_bool to_bool (settings e) "tgw_use_default_rt" = inr flag →
       str_in "/" (lab_vpc_cidr e) = false →
       run = (inl (ValueError ("Invalid CIDR block: " +:+ lab_vpc_cidr e)), empty_stack)).
Proof.
  intros run; subst run. split; [|split].
  - intros v Hv Hint. open_main e. unfold get_int. by rewrite Hv, Hint.
  - intros asn v Hasn Hv Hbool. open_main e. rewrite Hasn. unfold get_bool.
    by rewrite Hv, Hbool.
  - intros asn flag Hasn Hflag Hlab. open_main e.
    rewrite Hasn, Hflag, Hlab, orb_true_r. clear Hasn Hflag Hlab.
    generalize (or_str (cfg !! "lab_vpc_cidr") "10.200.0.0/16").
    generalize (or_str (cfg !! "dev_vpc_cidr") "10.201.0.0/16").
    name_settings cfg. vm_compute. reflexivity.
Qed.

(** X10. A second network range without "/" stops the script only after the
    first network is declared: the stack then holds the eight resources of
    the first network, and neither a hub nor any output. *)
Theorem main_aborts_after_lab (e : Env) (asn : option Z) (flag : option bool) :
  get_int to_int (settings e) "tgw_asn" = inr asn →
  get_bool to_bool (settings e) "tgw_use_default_rt" = inr flag →
  str_in "/" (lab_vpc_cidr e) = true →
  str_in "/" (dev_vpc_cidr e) = false →
  ∃ s,
    main to_int to_bool e empty_stack
      = (inl (ValueError ("Invalid CIDR block: " +:+ dev_vpc_cidr e)), s)
    ∧ res_type <$> resources s
        = [Vpc; Subnet; Subnet; Subnet; InternetGateway; RouteTable; Route;
           RouteTableAssociation]
    ∧ outputs s = [].
Proof.
  intros Hasn Hflag Hlab Hdev.
  exists (main to_int to_bool e empty_stack).2.
  split; [apply run_pair_gen|];
    open_main e; rewrite Hasn, Hflag; clear Hasn Hflag;
    name_ranges cfg Hlab Hdev;
    rewrite Hlab, Hdev, (slash_truthy _ Hlab), orb_true_r;
    clear Hlab Hdev; name_settings cfg; vm_compute; repeat split.
Qed.

(** X11. The setting tgw_use_default_rt has no effect: whatever it says, the
    hub is declared with its default route table association and
    propagation enabled. *)
Theorem main_ignores_default_rt_flag (e : Env) (asn : option Z) (flag : option bool) :
  get_int to_int (settings e) "tgw_asn" = inr asn →
  get_bool to_bool (settings e) "tgw_use_default_rt" = inr flag →
  str_in "/" (lab_vpc_cidr e) = true →
  str_in "/" (dev_vpc_cidr e) = true →
  ∃ s,
    main to_int to_bool e empty_stack = (inr tt, s)
    ∧ (λ r, (res_args r !! "default_route_table_association",
             res_args r !! "default_route_table_propagation"))
        <$> of_type TransitGateway s
        = [(Some (VIn (Str "enable")), Some (VIn (Str "enable")))].
Proof.
  intros Hasn Hflag Hlab Hdev. full_run e Hasn Hflag Hlab Hdev.
  - reflexivity.
  - by destruct flag as [[|]|].
Qed.

(** X12. The hub gets the ASN of the setting tgw_asn, whatever integer that
    is, except that a missing setting and the value 0 both give 64512; the
    output transit_gateway_asn is this same number. *)
Theorem main_hub_asn (e : Env) (asn : option Z) (flag : option bool) :
  get_int to_int (settings e) "tgw_asn" = inr asn →
  get_bool to_bool (settings e) "tgw_use_default_rt" = inr flag →
  str_in "/" (lab_vpc_cidr e) = true →
  str_in "/" (dev_vpc_cidr e) = true →
  ∃ s z,
    main to_int to_bool e empty_stack = (inr tt, s)
    ∧ (λ r, res_args r !! "amazon_side_asn") <$> of_type TransitGateway s
        = [Some (VInt z)]
    ∧ filter (λ kv, kv.1 = "transit_gateway_asn") (outputs s)
        = [("transit_gateway_asn", VInt z)]
    ∧ (asn = None ∨ asn = Some 0%Z → z = 64512%Z)
    ∧ (∀ a, asn = Some a → a ≠ 0%Z → z = a).
Proof.
  intros Hasn Hflag Hlab Hdev.
  eexists (main _ _ e empty_stack).2, (or_int asn 64512).
  split; [apply run_pair|split; [|split]].
  1-3: run_main e Hasn Hflag Hlab Hdev; vm_compute; reflexivity.
  split.
  - by intros [->| ->].
  - intros a -> Ha; simpl. by destruct (Z.eqb_spec a 0).
Qed.

(** X13. Whatever the two network ranges are, the script wires the networks
    crosswise: each network's route table gets exactly one route through
    the hub, to the range of the other network, and each network is attached
    to the hub through its own two dedicated subnets. *)
Theorem main_cross_routes (e : Env) (asn : option Z) (flag : option bool) :
  get_int to_int (settings e) "tgw_asn" = inr asn →
  get_bool to_bool (settings e) "tgw_use_default_rt" = inr flag →
  str_in "/" (lab_vpc_cidr e) = true →
  str_in "/" (dev_vpc_cidr e) = true →
  let project_name := get_project e in
  let out ty name := {| out_type := ty; out_name := name; out_attr := "id" |} in
  let lab_vpc := out Vpc (project_name +:+ "-lab-vpc") in
  let dev_vpc := out Vpc (project_name +:+ "-dev-vpc") in
  let lab_route_table := out RouteTable ((project_name +:+ "-lab-workload") +:+ "-0") in
  let dev_route_table := out RouteTable ((project_name +:+ "-dev-workload") +:+ "-0") in
  let hub := out TransitGateway (project_name +:+ "-tgw") in
  ∃ s,
    main to_int to_bool e empty_stack = (inr tt, s)
    ∧ (λ r, (attr r "id", res_args r !! "cidr_block")) <$> of_type Vpc s
        = [(lab_vpc, Some (VIn (Str (lab_vpc_cidr e))));
           (dev_vpc, Some (VIn (Str (dev_vpc_cidr e))))]
    ∧ (λ r, (attr r "id", res_args r !! "vpc_id")) <$> of_type RouteTable s
        = [(lab_route_table, Some (VIn (Ref lab_vpc)));
           (dev_route_table, Some (VIn (Ref dev_vpc)))]
    ∧ (λ r, (res_args r !! "route_table_id", res_args r !! "destination_cidr_block",
             next_hops r)) <$> hub_routes s
        = [(Some (VIn (Ref lab_route_table)), Some (VIn (Str (dev_vpc_cidr e))),
            [("transit_gateway_id", VIn (Ref hub))]);
           (Some (VIn (Ref dev_route_table)), Some (VIn (Str (lab_vpc_cidr e))),
            [("transit_gateway_id", VIn (Ref hub))])]
    ∧ (λ r, (res_args r !! "vpc_id", res_args r !! "subnet_ids",
             res_args r !! "transit_gateway_id")) <$> of_type VpcAttachment s
        = [(Some (VIn (Ref lab_vpc)),
            Some (VList [VIn (Ref (out Subnet ((project_name +:+ "-lab-tgw") +:+ "-0")));
                         VIn (Ref (out Subnet ((project_name +:+ "-lab-tgw") +:+ "-1")))]),
            Some (VIn (Ref hub)));
           (Some (VIn (Ref dev_vpc)),
            Some (VList [VIn (Ref (out Subnet ((project_name +:+ "-dev-tgw") +:+ "-0")));
                         VIn (Ref (out Subnet ((project_name +:+ "-dev-tgw") +:+ "-1")))]),
            Some (VIn (Ref hub)))].
Proof.
  intros Hasn Hflag Hlab Hdev project_name out lab_vpc dev_vpc
         lab_route_table dev_route_table hub.
  subst project_name out lab_vpc dev_vpc lab_route_table dev_route_table hub.
  full_run e Hasn Hflag Hlab Hdev; repeat split.
Qed.

(** X14. Every resource of the stack that takes tags carries the four common
    tags, with the project and stack names of the run; the only resources
    without tags are the routes and the route table associations. *)
Theorem main_common_tags (e : Env) (asn : option Z) (flag : option bool) :
  get_int to_int (settings e) "tgw_asn" = inr asn →
  get_bool to_bool (settings e) "tgw_use_default_rt" = inr flag →
  str_in "/" (lab_vpc_cidr e) = true →
  str_in "/" (dev_vpc_cidr e) = true →
  ∃ s,
    main to_int to_bool e empty_stack = (inr tt, s)
    ∧ Forall (λ t : gmap string string,
        t !! "Project" = Some (get_project e)
        ∧ t !! "ManagedBy" = Some "Pulumi"
        ∧ t !! "Environment" = Some (get_stack e)
        ∧ t !! "Tutorial" = Some "6-Transit-Gateway")
        (omap tags_of (resources s))
    ∧ res_type <$> filter (λ r, tags_of r = None) (resources s)
        = [Route; RouteTableAssociation; Route; RouteTableAssociation; Route; Route].
Proof.
  intros Hasn Hflag Hlab Hdev.
  exists (main to_int to_bool e empty_stack).2.
  split; [apply run_pair|split].
  1,3: run_main e Hasn Hflag Hlab Hdev; vm_compute; reflexivity.
  set (f := λ t : gmap string string,
         (t !! "Project", t !! "ManagedBy", t !! "Environment", t !! "Tutorial")).
  apply (Forall_impl (λ t, f t = (Some (get_project e), Some "Pulumi",
                                  Some (get_stack e), Some "6-Transit-Gateway"))).
  2: { intros t [= ? ? ? ?]. done. }
  apply (Forall_fmap f (λ x, x = _)).
  assert (f <$> omap tags_of (resources (main to_int to_bool e empty_stack).2)
          = replicate 19 (Some (get_project e), Some "Pulumi",
                          Some (get_stack e), Some "6-Transit-Gateway")) as ->.
  { subst f. run_main e Hasn Hflag Hlab Hdev. vm_compute. reflexivity. }
  by apply Forall_replicate.
Qed.

(** X15. Each test instance is launched from the image the lookup found,
    with a public address, into the workload subnet of its own network and
    under the security group of that same network; no subnet hands out
    public addresses by itself. *)
Theorem main_placement (e : Env) (asn : option Z) (flag : option bool) :
  get_int to_int (settings e) "tgw_asn" = inr asn →
  get_bool to_bool (settings e) "tgw_use_default_rt" = inr flag →
  str_in "/" (lab_vpc_cidr e) = true →
  str_in "/" (dev_vpc_cidr e) = true →
  let project_name := get_project e in
  let out ty name := Ref {| out_type := ty; out_name := name; out_attr := "id" |} in
  let lab_vpc := out Vpc (project_name +:+ "-lab-vpc") in
  let dev_vpc := out Vpc (project_name +:+ "-dev-vpc") in
  let lab_subnet := out Subnet ((project_name +:+ "-lab-workload") +:+ "-0") in
  let dev_subnet := out Subnet ((project_name +:+ "-dev-workload") +:+ "-0") in
  let lab_sg := out SecurityGroup (project_name +:+ "-lab-sg") in
  let dev_sg := out SecurityGroup (project_name +:+ "-dev-sg") in
  ∃ s,
    main to_int to_bool e empty_stack = (inr tt, s)
    ∧ (λ r, (res_args r !! "subnet_id", res_args r !! "vpc_security_group_ids",
             res_args r !! "ami", res_args r !! "associate_public_ip_address"))
        <$> of_type Instance s
        = [(Some (VIn lab_subnet), Some (VList [VIn lab_sg]),
            Some (VIn (Str (get_ami e))), Some (VBool true));
           (Some (VIn dev_subnet), Some (VList [VIn dev_sg]),
            Some (VIn (Str (get_ami e))), Some (VBool true))]
    ∧ (λ r, (id r, res_args r !! "vpc_id")) <$> of_type SecurityGroup s
        = [(lab_sg, Some (VIn lab_vpc)); (dev_sg, Some (VIn dev_vpc))]
    ∧ (λ r, (id r, res_args r !! "vpc_id", res_args r !! "map_public_ip_on_launch"))
        <$> of_type Subnet s
        = [(lab_subnet, Some (VIn lab_vpc), Some (VBool false));
           (out Subnet ((project_name +:+ "-lab-tgw") +:+ "-0"),
            Some (VIn lab_vpc), Some (VBool false));
           (out Subnet ((project_name +:+ "-lab-tgw") +:+ "-1"),
            Some (VIn lab_vpc), Some (VBool false));
           (dev_subnet, Some (VIn dev_vpc), Some (VBool false));
           (out Subnet ((project_name +:+ "-dev-tgw") +:+ "-0"),
            Some (VIn dev_vpc), Some (VBool false));
           (out Subnet ((project_name +:+ "-dev-tgw") +:+ "-1"),
            Some (VIn dev_vpc), Some (VBool false))].
Proof.
  intros Hasn Hflag Hlab Hdev project_name out lab_vpc dev_vpc
         lab_subnet dev_subnet lab_sg dev_sg.
  subst project_name out lab_vpc dev_vpc lab_subnet dev_subnet lab_sg dev_sg.
  full_run e Hasn Hflag Hlab Hdev; repeat split.
Qed.

(** X16. Whatever the two network ranges are, each security group admits
    SSH from anywhere and ICMP and all traffic from the range of the other
    network, and lets everything out. *)
Theorem main_security_groups (e : Env) (asn : option Z) (flag : option bool) :
  get_int to_int (settings e) "tgw_asn" = inr asn →
  get_bool to_bool (settings e) "tgw_use_default_rt" = inr flag →
  str_in "/" (lab_vpc_cidr e) = true →
  str_in "/" (dev_vpc_cidr e) = true →
  ∃ s,
    main to_int to_bool e empty_stack = (inr tt, s)
    ∧ (λ r, (res_name r, res_args r !! "ingress", res_args r !! "egress"))
        <$> of_type SecurityGroup s
        = [(get_project e +:+ "-lab-sg",
            Some (VList [rule "tcp" 22 22 "0.0.0.0/0" "SSH access";
                         rule "icmp" (-1) (-1) (dev_vpc_cidr e) "ICMP from Dev VPC";
                         rule "-1" 0 0 (dev_vpc_cidr e) "All traffic from Dev VPC"]),
            Some (VList [rule "-1" 0 0 "0.0.0.0/0" "Allow all outbound"]));
           (get_project e +:+ "-dev-sg",
            Some (VList [rule "tcp" 22 22 "0.0.0.0/0" "SSH access";
                         rule "icmp" (-1) (-1) (lab_vpc_cidr e) "ICMP from Lab VPC";
                         rule "-1" 0 0 (lab_vpc_cidr e) "All traffic from Lab VPC"]),
            Some (VList [rule "-1" 0 0 "0.0.0.0/0" "Allow all outbound"]))].
Proof.
  intros Hasn Hflag Hlab Hdev. full_run e Hasn Hflag Hlab Hdev; repeat split.
Qed.
(** X17. The script declares in dependency order: every resource refers
    only to resources declared before it, and every output refers to a
    declared resource. *)
Theorem main_references_declared (e : Env) (asn : option Z) (flag : option bool) :
  get_int to_int (settings e) "tgw_asn" = inr asn →
  get_bool to_bool (settings e) "tgw_use_default_rt" = inr flag →
  str_in "/" (lab_vpc_cidr e) = true →
  str_in "/" (dev_vpc_cidr e) = true →
  ∃ s,
    main to_int to_bool e empty_stack = (inr tt, s)
    ∧ declared_before (resources s)
    ∧ Forall (λ v, Forall (declared_in (resources s)) (refs_of v)) (outputs s).*2.
Proof.
  intros Hasn Hflag Hlab Hdev.
  exists (main to_int to_bool e empty_stack).2.
  split; [apply run_pair|split].
  - run_main e Hasn Hflag Hlab Hdev; vm_compute; reflexivity.
  - apply (declared_before_table _
      [[]; [0]; [0]; [0]; [0]; [0]; [4; 5]; [1; 5];
       []; [8]; [8]; [8]; [8]; [8]; [12; 13]; [9; 13];
       []; [2; 3; 0; 16]; [10; 11; 8; 16]; [5; 16]; [13; 16];
       [0]; [8]; [1; 21]; [9; 22]]).
    + run_main e Hasn Hflag Hlab Hdev.
      match goal with key_name : option string |- _ => destruct key_name end;
        vm_compute; reflexivity.
    + assert (length (resources (main to_int to_bool e empty_stack).2) = 25) as ->.
      { run_main e Hasn Hflag Hlab Hdev; vm_compute; reflexivity. }
      apply (bool_decide_unpack _). vm_compute. exact I.
  - apply (declared_in_table _ _
      [[0]; []; [1]; [2]; [3]; [23]; [23]; [23];
       [8]; []; [9]; [10]; [11]; [24]; [24]; [24];
       [16]; [16]; []; [17]; [18]; [23; 24; 24; 23]]).
    run_main e Hasn Hflag Hlab Hdev; vm_compute; reflexivity.
Qed.

(** X18. No two resources of a run have both the same type and the same
    logical name.  The names alone are not all different: the workload
    subnet and the route table of a network share theirs. *)
Theorem main_names_distinct (e : Env) (asn : option Z) (flag : option bool) :
  get_int to_int (settings e) "tgw_asn" = inr asn →
  get_bool to_bool (settings e) "tgw_use_default_rt" = inr flag →
  str_in "/" (lab_vpc_cidr e) = true →
  str_in "/" (dev_vpc_cidr e) = true →
  ∃ s,
    main to_int to_bool e empty_stack = (inr tt, s)
    ∧ NoDup (urn <$> resources s)
    ∧ ¬ NoDup (res_name <$> resources s).
Proof.
  intros Hasn Hflag Hlab Hdev.
  exists (main to_int to_bool e empty_stack).2.
  split; [apply run_pair; run_main e Hasn Hflag Hlab Hdev; vm_compute; reflexivity|].
  pose (network := λ n : string,
         [(Vpc, inl ("-" +:+ n +:+ "-vpc") : string + string * string);
          (Subnet, inr ("-" +:+ n +:+ "-workload", "-0"));
          (Subnet, inr ("-" +:+ n +:+ "-tgw", "-0"));
          (Subnet, inr ("-" +:+ n +:+ "-tgw", "-1"));
          (InternetGateway, inl ("-" +:+ n +:+ "-igw"));
          (RouteTable, inr ("-" +:+ n +:+ "-workload", "-0"));
          (Route, inl ("-" +:+ n +:+ "-igw-route"));
          (RouteTableAssociation, inl ("-" +:+ n +:+ "-workload-rta"))]).
  pose (parts := network "lab" ++ network "dev" ++
         [(TransitGateway, inl "-tgw");
          (VpcAttachment, inl "-lab-tgw-attachment");
          (VpcAttachment, inl "-dev-tgw-attachment");
          (Route, inl "-lab-to-dev-via-tgw");
          (Route, inl "-dev-to-lab-via-tgw");
          (SecurityGroup, inl "-lab-sg"); (SecurityGroup, inl "-dev-sg");
          (Instance, inl "-lab-instance"); (Instance, inl "-dev-instance")]).
  pose (built := λ (p : string) (x : ResourceType * (string + string * string)),
         (x.1, match x.2 with
               | inl a => p +:+ a
               | inr (a, b) => (p +:+ a) +:+ b
               end)).
  pose (flat := λ x : ResourceType * (string + string * string),
         (x.1, match x.2 with inl a => a | inr (a, b) => a +:+ b end)).
  assert (urn <$> resources (main to_int to_bool e empty_stack).2
          = built (get_project e) <$> parts) as Hurns.
  { subst network parts built. run_main e Hasn Hflag Hlab Hdev.
    vm_compute. reflexivity. }
  split.
  - rewrite Hurns.
    rewrite (list_fmap_ext _ ((λ x, (x.1, get_project e +:+ x.2)) ∘ flat) parts).
    2: { intros _ [t [a|[a b]]] _; [done|]. unfold built, flat; simpl.
         by rewrite append_assoc_3. }
    rewrite list_fmap_compose. apply (NoDup_fmap_2 _).
    apply (bool_decide_unpack _). vm_compute. exact I.
  - intros Hnodup. clear Hurns.
    assert (1 = 5) as [=].
    apply (NoDup_lookup _ 1 5 ((get_project e +:+ "-lab-workload") +:+ "-0") Hnodup);
      run_main e Hasn Hflag Hlab Hdev; vm_compute; reflexivity.
Qed.
End more_assembly.

Section composite_and_script.

Import tgw.

Variable to_int : string → option Z.
Variable to_bool : string → option bool.

(** X19. The script wires by hand what the composite would declare: handed
    the two networks of the script, under the project name as prefix, the
    composite declares routes with the same route tables, destinations and
    hub, and attachments of the same networks and subnets to the same hub.
    Only the logical names and the tags differ. *)
Theorem main_matches_composite (e : Env) (asn : option Z) (flag : option bool)
    (tgw_description : string) (tags : option (gmap string string)) :
  get_int to_int (settings e) "tgw_asn" = inr asn →
  get_bool to_bool (settings e) "tgw_use_default_rt" = inr flag →
  str_in "/" (lab_vpc_cidr e) = true →
  str_in "/" (dev_vpc_cidr e) = true →
  let project_name := get_project e in
  let out ty name := Ref {| out_type := ty; out_name := name; out_attr := "id" |} in
  let lab :=
    {| vc_name := "lab";
       vc_vpc_id := out Vpc (project_name +:+ "-lab-vpc");
       vc_subnet_ids := [out Subnet ((project_name +:+ "-lab-tgw") +:+ "-0");
                         out Subnet ((project_name +:+ "-lab-tgw") +:+ "-1")];
       vc_cidr := lab_vpc_cidr e;
       vc_route_table_id := out RouteTable ((project_name +:+ "-lab-workload") +:+ "-0") |} in
  let dev :=
    {| vc_name := "dev";
       vc_vpc_id := out Vpc (project_name +:+ "-dev-vpc");
       vc_subnet_ids := [out Subnet ((project_name +:+ "-dev-tgw") +:+ "-0");
                         out Subnet ((project_name +:+ "-dev-tgw") +:+ "-1")];
       vc_cidr := dev_vpc_cidr e;
       vc_route_table_id := out RouteTable ((project_name +:+ "-dev-workload") +:+ "-0") |} in
  let wiring r :=
    (res_args r !! "route_table_id", res_args r !! "destination_cidr_block",
     next_hops r) in
  let attached r :=
    (res_args r !! "vpc_id", res_args r !! "subnet_ids",
     res_args r !! "transit_gateway_id") in
  ∃ s hub attachments vpc_routes,
    main to_int to_bool e empty_stack = (inr tt, s)
    ∧ create_tgw_with_vpc_attachments project_name tgw_description [lab; dev] true tags
          empty_stack
        = (inr (hub, attachments, vpc_routes),
           register_all (hub :: attachments ++ vpc_routes) empty_stack)
    ∧ wiring <$> hub_routes s = wiring <$> vpc_routes
    ∧ attached <$> of_type VpcAttachment s = attached <$> attachments.
Proof.
  intros Hasn Hflag Hlab Hdev project_name out lab dev wiring attached.
  eexists (main _ _ e empty_stack).2, _, _, _.
  split; [apply run_pair|split; [apply create_tgw_with_vpc_attachments_eq|]].
  all: subst project_name out lab dev wiring attached.
  all: run_main e Hasn Hflag Hlab Hdev; vm_compute; repeat split.
Qed.

End composite_and_script.

(** ** The further properties at work *)

Lemma main_succeeds_iff_witness :
  (main (λ _, None) (λ _, None) tutorial_env empty_stack).1 = inr tt
  ∧ (main (λ _, None) (λ _, None) env_bad_dev_range empty_stack).1 ≠ inr tt.
Proof.
  split.
  - apply (proj1 (main_succeeds_iff (λ _, None) (λ _, None) tutorial_env)).
    split; [by eexists|]. split; [by eexists|]. split; reflexivity.
  - intros H.
    apply (proj1 (main_succeeds_iff (λ _, None) (λ _, None) env_bad_dev_range)) in H
      as (_ & _ & _ & H).
    vm_compute in H. discriminate H.
Defined.

Lemma main_aborts_clean_witness :
  main (λ _, None) (λ _, None) env_bad_asn empty_stack
    = (inl (ConfigTypeError "tgw_asn"), empty_stack).
Proof.
  apply (proj1 (main_aborts_clean (λ _, None) (λ _, None) env_bad_asn) "sixty-four");
    reflexivity.
Defined.

Lemma main_aborts_after_lab_witness :
  ∃ s,
    main (λ _, None) (λ _, None) env_bad_dev_range empty_stack
      = (inl (ValueError "Invalid CIDR block: 10.201.0.0"), s)
    ∧ length (resources s) = 8
    ∧ outputs s = [].
Proof.
  destruct (main_aborts_after_lab (λ _, None) (λ _, None) env_bad_dev_range None None
              eq_refl eq_refl eq_refl eq_refl) as (s & Hrun & Htypes & Hout).
  exists s. split; [exact Hrun|]. split; [|exact Hout].
  by rewrite <- (length_fmap res_type), Htypes.
Defined.

Lemma main_ignores_default_rt_flag_witness :
  get_bool (λ _, Some false) (settings env_no_default_rt) "tgw_use_default_rt"
    = inr (Some false)
  ∧ ∃ s,
      main (λ _, None) (λ _, Some false) env_no_default_rt empty_stack = (inr tt, s)
      ∧ (λ r, res_args r !! "default_route_table_association")
          <$> of_type TransitGateway s
          = [Some (VIn (Str "enable"))].
Proof.
  split; [reflexivity|].
  destruct (main_ignores_default_rt_flag (λ _, None) (λ _, Some false) env_no_default_rt
              None (Some false) eq_refl eq_refl eq_refl eq_refl) as (s & Hrun & Hhub).
  exists s. split; [exact Hrun|].
  apply (f_equal (fmap fst)) in Hhub. by rewrite <- list_fmap_compose in Hhub.
Defined.

Lemma main_hub_asn_witness :
  ∃ s,
    main (λ _, Some 0%Z) (λ _, None) env_asn_zero empty_stack = (inr tt, s)
    ∧ (λ r, res_args r !! "amazon_side_asn") <$> of_type TransitGateway s
        = [Some (VInt 64512)].
Proof.
  destruct (main_hub_asn (λ _, Some 0%Z) (λ _, None) env_asn_zero (Some 0%Z) None
              eq_refl eq_refl eq_refl eq_refl) as (s & z & Hrun & Hhub & _ & Hzero & _).
  exists s. split; [exact Hrun|]. rewrite Hhub, Hzero; [reflexivity | by right].
Defined.

Lemma main_cross_routes_witness :
  ∃ s,
    main (λ _, None) (λ _, None) tutorial_env empty_stack = (inr tt, s)
    ∧ length (hub_routes s) = 2
    ∧ length (of_type VpcAttachment s) = 2.
Proof.
  destruct (main_cross_routes (λ _, None) (λ _, None) tutorial_env None None
              eq_refl eq_refl eq_refl eq_refl) as (s & Hrun & _ & _ & Hroutes & Hatt).
  exists s. split; [exact Hrun|].
  apply (f_equal length) in Hroutes. rewrite length_fmap in Hroutes.
  apply (f_equal length) in Hatt. rewrite length_fmap in Hatt.
  by split.
Defined.

Lemma main_common_tags_witness :
  ∃ s,
    main (λ _, None) (λ _, None) tutorial_env empty_stack = (inr tt, s)
    ∧ Forall (λ t : gmap string string, t !! "Project" = Some "tgw-hub")
             (omap tags_of (resources s)).
Proof.
  destruct (main_common_tags (λ _, None) (λ _, None) tutorial_env None None
              eq_refl eq_refl eq_refl eq_refl) as (s & Hrun & Htags & _).
  exists s. split; [exact Hrun|].
  eapply Forall_impl; [exact Htags|]. by intros t (? & _).
Defined.

Lemma main_placement_witness :
  ∃ s,
    main (λ _, None) (λ _, None) tutorial_env empty_stack = (inr tt, s)
    ∧ length (of_type Instance s) = 2
    ∧ length (of_type Subnet s) = 6.
Proof.
  destruct (main_placement (λ _, None) (λ _, None) tutorial_env None None
              eq_refl eq_refl eq_refl eq_refl) as (s & Hrun & Hinst & _ & Hsub).
  exists s. split; [exact Hrun|].
  apply (f_equal length) in Hinst. rewrite length_fmap in Hinst.
  apply (f_equal length) in Hsub. rewrite length_fmap in Hsub.
  by split.
Defined.

Lemma main_security_groups_witness :
  ∃ s,
    main (λ _, None) (λ _, None) tutorial_env empty_stack = (inr tt, s)
    ∧ length (of_type SecurityGroup s) = 2.
Proof.
  destruct (main_security_groups (λ _, None) (λ _, None) tutorial_env None None
              eq_refl eq_refl eq_refl eq_refl) as (s & Hrun & Hsg).
  exists s. split; [exact Hrun|].
  apply (f_equal length) in Hsg. by rewrite length_fmap in Hsg.
Defined.

Lemma main_references_declared_witness :
  ∃ s,
    main (λ _, None) (λ _, None) tutorial_env empty_stack = (inr tt, s)
    ∧ declared_before (resources s).
Proof.
  destruct (main_references_declared (λ _, None) (λ _, None) tutorial_env None None
              eq_refl eq_refl eq_refl eq_refl) as (s & Hrun & Hrefs & _).
  exists s. split; assumption.
Defined.

Lemma main_names_distinct_witness :
  ∃ s,
    main (λ _, None) (λ _, None) tutorial_env empty_stack = (inr tt, s)
    ∧ NoDup (urn <$> resources s).
Proof.
  destruct (main_names_distinct (λ _, None) (λ _, None) tutorial_env None None
              eq_refl eq_refl eq_refl eq_refl) as (s & Hrun & Hnames & _).
  exists s. split; assumption.
Defined.

Lemma main_matches_composite_witness :
  ∃ s hub attachments vpc_routes s',
    main (λ _, None) (λ _, None) tutorial_env empty_stack = (inr tt, s)
    ∧ tgw.create_tgw_with_vpc_attachments "tgw-hub" "two spokes"
          [ {| tgw.vc_name := "lab";
               tgw.vc_vpc_id := id {| res_type := Vpc; res_name := "tgw-hub-lab-vpc";
                                      res_args := ∅ |};
               tgw.vc_subnet_ids :=
                 [id {| res_type := Subnet; res_name := "tgw-hub-lab-tgw-0"; res_args := ∅ |};
                  id {| res_type := Subnet; res_name := "tgw-hub-lab-tgw-1"; res_args := ∅ |}];
               tgw.vc_cidr := "10.200.0.0/16";
               tgw.vc_route_table_id :=
                 id {| res_type := RouteTable; res_name := "tgw-hub-lab-workload-0";
                       res_args := ∅ |} |};
            {| tgw.vc_name := "dev";
               tgw.vc_vpc_id := id {| res_type := Vpc; res_name := "tgw-hub-dev-vpc";
                                      res_args := ∅ |};
               tgw.vc_subnet_ids :=
                 [id {| res_type := Subnet; res_name := "tgw-hub-dev-tgw-0"; res_args := ∅ |};
                  id {| res_type := Subnet; res_name := "tgw-hub-dev-tgw-1"; res_args := ∅ |}];
               tgw.vc_cidr := "10.201.0.0/16";
               tgw.vc_route_table_id :=
                 id {| res_type := RouteTable; res_name := "tgw-hub-dev-workload-0";
                       res_args := ∅ |} |} ] true None empty_stack
        = (inr (hub, attachments, vpc_routes), s')
    ∧ (λ r, res_args r !! "destination_cidr_block") <$> hub_routes s
        = (λ r, res_args r !! "destination_cidr_block") <$> vpc_routes.
Proof.
  destruct (main_matches_composite (λ _, None) (λ _, None) tutorial_env None None
              "two spokes" None eq_refl eq_refl eq_refl eq_refl)
    as (s & hub & attachments & vpc_routes & Hrun & Hcomp & Hwiring & _).
  exists s, hub, attachments, vpc_routes. eexists.
  split; [exact Hrun|]. split; [exact Hcomp|].
  apply (f_equal (fmap (λ w : _ * option Value * list (string * Value), w.1.2)))
    in Hwiring.
  by rewrite <- !list_fmap_compose in Hwiring.
Defined.
